(** * CGPA predictor (app.py): grade conversion, CSV record store,
      aggregation and trend-chart data.

    Python values are modelled as the interpreter has them: [int] is [Z],
    [float] is the IEEE-754 binary64 type of the kernel ([PrimFloat.float],
    specified by [SpecFloat]), [str] is [string] restricted to ASCII text,
    [None]/exceptions are [option].  The CSV file is modelled as the sequence
    of rows that [csv.reader] yields from it (quoting and line terminators are
    the csv module's business); wall-clock time is an explicit argument. *)

From Stdlib Require Import ZArith List Sorted Permutation Lia Bool String Ascii.
From Stdlib Require Decimal DecimalString DecimalZ DecimalPos DecimalFacts.
From Stdlib Require Import Floats.
Import ListNotations.

Open Scope Z_scope.

(** ** Python numbers *)

Module PyNum.

(** An integer as an (unnormalised, exact) binary floating-point datum. *)
Definition Z2SF (z : Z) : spec_float :=
  match z with
  | Z0 => S754_zero false
  | Zpos p => S754_finite false p 0
  | Zneg p => S754_finite true p 0
  end.

(** [float(n)] and the implicit int-to-float conversion of mixed
    arithmetic: the nearest binary64 value, ties to even. *)
Definition float_of_int (z : Z) : float :=
  SF2Prim (binary_normalize prec emax z 0 false).

(** [a / b] on two ints: the correctly rounded quotient;
    [None] is ZeroDivisionError. *)
Definition int_truediv (a b : Z) : option float :=
  if b =? 0 then None
  else Some (SF2Prim (SFdiv prec emax (Z2SF a) (Z2SF b))).

(** [x / n] for a float [x] and an int [n]. *)
Definition float_div_int (x : float) (n : Z) : option float :=
  if n =? 0 then None else Some (PrimFloat.div x (float_of_int n)).

(** Comparisons of a float with an int literal, as written in the source. *)
Definition ge (x y : float) : bool := PrimFloat.leb y x.
Definition lt (x y : float) : bool := PrimFloat.ltb x y.
Definition gt (x y : float) : bool := PrimFloat.ltb y x.

(** [sum(xs)] over floats: accumulation from the int 0, left to right,
    every addition rounded (CPython up to 3.11; later versions compensate the
    rounding errors of the additions, and agree with this whenever the
    additions are exact). *)
Definition sum_floats (xs : list float) : float :=
  fold_left PrimFloat.add xs PrimFloat.zero.

(** [sum(ns)] over ints. *)
Definition sum_ints (ns : list Z) : Z := fold_left Z.add ns 0.

End PyNum.

(** ** Python text conversions *)

Module PyText.

Definition chars (s : string) : list ascii := list_ascii_of_string s.

(** The white space that [int] and [float] skip around a numeral:
    TAB, LF, VT, FF, CR and the blank. *)
Definition is_space (c : ascii) : bool :=
  let n := N_of_ascii c in
  (((9 <=? n) && (n <=? 13)) || (n =? 32))%N.

Fixpoint lstrip (cs : list ascii) : list ascii :=
  match cs with
  | c :: cs' => if is_space c then lstrip cs' else cs
  | [] => []
  end.

Definition strip (cs : list ascii) : list ascii :=
  List.rev (lstrip (List.rev (lstrip cs))).

Definition is_digit (c : ascii) : bool :=
  let n := N_of_ascii c in ((48 <=? n) && (n <=? 57))%N.

(** One decimal digit in front of a digit string. *)
Definition push_digit (c : ascii) (u : Decimal.uint) : option Decimal.uint :=
  DecimalString.uint_of_char c (Some u).

(** [digitpart ::= digit (["_"] digit)*]: the longest such prefix (as a
    decimal numeral, [Nil] when there is none) and the rest of the text. *)
Fixpoint scan_digits (cs : list ascii) : Decimal.uint * list ascii :=
  match cs with
  | [] => (Decimal.Nil, [])
  | c :: rest =>
      if is_digit c then
        let more :=
          match rest with
          | "_"%char :: (c' :: _) as rest' =>
              if is_digit c' then scan_digits rest' else (Decimal.Nil, rest)
          | _ => scan_digits rest
          end in
        match push_digit c (fst more) with
        | Some u => (u, snd more)
        | None => (Decimal.Nil, cs)
        end
      else (Decimal.Nil, cs)
  end.

(** An optional sign: [true] for "-". *)
Definition scan_sign (cs : list ascii) : bool * list ascii :=
  match cs with
  | "-"%char :: r => (true, r)
  | "+"%char :: r => (false, r)
  | _ => (false, cs)
  end.

(** [int(s)] in base 10; [None] is ValueError. *)
Definition py_int (s : string) : option Z :=
  let (neg, body) := scan_sign (strip (chars s)) in
  match scan_digits body with
  | (Decimal.Nil, _) => None
  | (u, []) => Some (Z.of_int (if neg then Decimal.Neg u else Decimal.Pos u))
  | (_, _ :: _) => None
  end.

(** [str(n)] for an int. *)
Definition str_int (z : Z) : string :=
  DecimalString.NilZero.string_of_int (Z.to_int z).

Definition lower (c : ascii) : ascii :=
  let n := N_of_ascii c in
  if ((65 <=? n) && (n <=? 90))%N then ascii_of_N (n + 32) else c.

(** Does the text spell the lower-case word [w], whatever its case? *)
Definition spells (w : string) (cs : list ascii) : bool :=
  if list_eq_dec ascii_dec (map lower cs) (chars w) then true else false.

(** The binary64 value nearest to [(-1)^neg * n * 10^e10], ties to even
    (what [float(str)] returns for a decimal numeral with digits [n]). *)
Definition decimal_value (neg : bool) (n : Z) (e10 : Z) : float :=
  let sn := if neg then - n else n in
  if n =? 0 then (if neg then neg_zero else zero)
  else if 0 <=? e10
       then SF2Prim (binary_normalize prec emax (sn * 10 ^ e10) 0 false)
       else SF2Prim (SFdiv prec emax (PyNum.Z2SF sn) (PyNum.Z2SF (10 ^ (- e10)))).

(** [exponent ::= ("e" | "E") [sign] digitpart], or nothing, up to the end
    of the text. *)
Definition scan_exponent (cs : list ascii) : option Z :=
  match cs with
  | [] => Some 0
  | c :: r =>
      if (Ascii.eqb c "e" || Ascii.eqb c "E")%bool then
        let (neg, r') := scan_sign r in
        match scan_digits r' with
        | (Decimal.Nil, _) => None
        | (u, []) => Some (if neg then - Z.of_uint u else Z.of_uint u)
        | (_, _ :: _) => None
        end
      else None
  end.

(** [float(s)]; [None] is ValueError.
    [floatvalue ::= [sign] (floatnumber | "inf" | "infinity" | "nan")],
    [floatnumber ::= ([digitpart] "." digitpart | digitpart ["."]) [exponent]]. *)
Definition py_float (s : string) : option float :=
  let (neg, body) := scan_sign (strip (chars s)) in
  if (spells "inf" body || spells "infinity" body)%bool
  then Some (if neg then neg_infinity else infinity)
  else if spells "nan" body then Some nan
  else
    let (ip, r1) := scan_digits body in
    let (fp, r2) :=
      match r1 with
      | "."%char :: r => scan_digits r
      | _ => (Decimal.Nil, r1)
      end in
    match ip, fp with
    | Decimal.Nil, Decimal.Nil => None
    | _, _ =>
        match scan_exponent r2 with
        | Some e =>
            Some (decimal_value neg (Z.of_uint (Decimal.app ip fp))
                                (e - Z.of_nat (Decimal.nb_digits fp)))
        | None => None
        end
    end.

(** Nearest integer to [a / b] for [0 <= a], [0 < b], ties to even. *)
Definition div_half_even (a b : Z) : Z :=
  let q := a / b in
  match 2 * (a mod b) ?= b with
  | Lt => q
  | Gt => q + 1
  | Eq => if Z.even q then q else q + 1
  end.

(** Nearest integer to [m * 2^e * 10^p], ties to even. *)
Definition scaled_round (p : nat) (m : positive) (e : Z) : Z :=
  let n := Zpos m * 10 ^ Z.of_nat p in
  if 0 <=? e then n * 2 ^ e else div_half_even n (2 ^ (- e)).

Definition digit_char (d : Z) : ascii := ascii_of_N (Z.to_N (48 + d)).

(** The last [w] decimal digits of [n], zero padded. *)
Fixpoint digits_fixed (w : nat) (n : Z) : string :=
  match w with
  | O => EmptyString
  | S w' => (digits_fixed w' (n / 10) ++ String (digit_char (n mod 10)) EmptyString)%string
  end.

(** [n / 10^p] written with [p] digits after the point, for [0 <= n]. *)
Definition fixed_text (p : nat) (n : Z) : string :=
  let scale := 10 ^ Z.of_nat p in
  (str_int (n / scale) ++
   match p with O => EmptyString | S _ => "." ++ digits_fixed p (n mod scale) end)%string.

(** [format(x, ".<p>f")], i.e. [f"{x:.<p>f}"]: the decimal with [p]
    fractional digits nearest to the exact value of [x], ties to even. *)
Definition format_fixed (p : nat) (x : float) : string :=
  let sign (s : bool) := if s then "-"%string else EmptyString in
  match Prim2SF x with
  | S754_nan => "nan"%string
  | S754_infinity s => (sign s ++ "inf")%string
  | S754_zero s => (sign s ++ fixed_text p 0)%string
  | S754_finite s m e => (sign s ++ fixed_text p (scaled_round p m e))%string
  end.

End PyText.

(** ** The CSV file, as [csv.writer] fills it and [csv.DictReader] reads it *)

Module Csv.

(** The text of one field.  [Repr x] is the text [repr(x)] that
    [csv.writer] emits for the float [x]: the shortest numeral that
    [float] reads back as [x]; it always carries a point, an exponent,
    "inf" or "nan", so [int] refuses it. *)
Inductive cell : Type :=
| Text (s : string)
| Repr (x : float).

Definition row : Type := list cell.
Definition file : Type := list row.

(** [int(field)] and [float(field)]. *)
Definition cell_int (c : cell) : option Z :=
  match c with
  | Text s => PyText.py_int s
  | Repr _ => None
  end.

Definition cell_float (c : cell) : option float :=
  match c with
  | Text s => PyText.py_float s
  | Repr x => Some x
  end.

Definition is_name (name : string) (c : cell) : bool :=
  match c with
  | Text s => String.eqb s name
  | Repr _ => false
  end.

(** [row[name]] in the dict that [DictReader] builds from the field names
    and one row: [dict(zip(fieldnames, row))], then [None] for the field
    names the row is too short for.  The outer [None] is KeyError, the
    inner one the value [None]. *)
Fixpoint row_get (fieldnames : row) (r : row) (name : string)
  : option (option cell) :=
  match fieldnames with
  | [] => None
  | f :: fs =>
      match row_get fs (tl r) name with
      | Some v => Some v
      | None => if is_name name f then Some (hd_error r) else None
      end
  end.

Definition is_blank (r : row) : bool :=
  match r with [] => true | _ :: _ => false end.

End Csv.

(** ** Python dicts: insertion-ordered, assignment to a present key keeps
    the key's position *)

Module PyDict.
Section Dict.
Context {K V : Type} (eqb : K -> K -> bool).

Definition dict : Type := list (K * V).

Fixpoint get (k : K) (d : dict) : option V :=
  match d with
  | [] => None
  | (k', v) :: d' => if eqb k k' then Some v else get k d'
  end.

Fixpoint set (k : K) (v : V) (d : dict) : dict :=
  match d with
  | [] => [(k, v)]
  | (k', v') :: d' =>
      if eqb k k' then (k', v) :: d' else (k', v') :: set k v d'
  end.

Definition values (d : dict) : list V := map snd d.
Definition keys (d : dict) : list K := map fst d.
End Dict.
End PyDict.

(** ** app.py *)

Import Csv.

(** The record dict built by [load_records]. *)
Record record : Type := mkRecord {
  year : Z;
  semester : Z;
  marks : list float;
  sgpa : float;
  timestamp : option cell
}.

Definition key : Type := (Z * Z)%type.

Definition key_eqb (a b : key) : bool :=
  (fst a =? fst b) && (snd a =? snd b).

Definition records : Type := list (key * record).

Definition records_get (k : key) (d : records) : option record :=
  PyDict.get key_eqb k d.

(** The contents of DATA_FILE; [None] when the file does not exist. *)
Definition store : Type := option file.

Definition header_row : row :=
  map Text ["year"; "semester"; "m1"; "m2"; "m3"; "m4"; "m5"; "sgpa"; "timestamp"]%string.

Definition ensure_data_file (st : store) : store :=
  match st with
  | None => Some [header_row]
  | Some _ => st
  end.

Definition field_int (fieldnames r : row) (name : string) : option Z :=
  match row_get fieldnames r name with
  | Some (Some c) => cell_int c
  | _ => None
  end.

Definition field_float (fieldnames r : row) (name : string) : option float :=
  match row_get fieldnames r name with
  | Some (Some c) => cell_float c
  | _ => None
  end.

(** The body of the loop of [load_records] up to the dict assignment;
    [None] when a lookup or a conversion raises. *)
Definition parse_record (fieldnames r : row) : option record :=
  match field_int fieldnames r "year", field_int fieldnames r "semester",
        field_float fieldnames r "m1", field_float fieldnames r "m2",
        field_float fieldnames r "m3", field_float fieldnames r "m4",
        field_float fieldnames r "m5", field_float fieldnames r "sgpa",
        row_get fieldnames r "timestamp" with
  | Some y, Some s, Some m1, Some m2, Some m3, Some m4, Some m5, Some g, Some t =>
      Some (mkRecord y s [m1; m2; m3; m4; m5] g t)
  | _, _, _, _, _, _, _, _, _ => None
  end.

(** The loop of [load_records] over the rows after the header; [DictReader]
    passes over blank rows. *)
Fixpoint read_rows (fieldnames : row) (body : list row) (acc : records)
  : option records :=
  match body with
  | [] => Some acc
  | r :: rest =>
      if is_blank r then read_rows fieldnames rest acc
      else
        match parse_record fieldnames r with
        | Some rec =>
            read_rows fieldnames rest
              (PyDict.set key_eqb (year rec, semester rec) rec acc)
        | None => None
        end
  end.

Definition read_file (f : file) : option records :=
  match f with
  | [] => Some []
  | fieldnames :: body => read_rows fieldnames body []
  end.

(** [load_records()]: the store afterwards, and the dict ([None] when an
    exception escapes). *)
Definition load_records (st : store) : store * option records :=
  let st' := ensure_data_file st in
  (st', match st' with
        | Some f => read_file f
        | None => None
        end).

(** The row written by [save_record]; [now] is
    [datetime.now().isoformat(timespec="seconds")]. *)
Definition record_row (y s : Z) (m0 m1 m2 m3 m4 : float) (g : float) (now : string)
  : row :=
  [Text (PyText.str_int y); Text (PyText.str_int s);
   Repr m0; Repr m1; Repr m2; Repr m3; Repr m4;
   Text (PyText.format_fixed 2 g); Text now].

Definition append_row (st : store) (r : row) : store :=
  match st with
  | Some f => Some (f ++ [r])
  | None => Some [r]
  end.

(** [save_record(year, semester, marks, sgpa)]; [None] is the IndexError of
    a marks list shorter than five, raised before anything is written. *)
Definition save_record (y s : Z) (ms : list float) (g : float) (now : string)
  (st : store) : store * option unit :=
  let st' := ensure_data_file st in
  match ms with
  | m0 :: m1 :: m2 :: m3 :: m4 :: _ =>
      (append_row st' (record_row y s m0 m1 m2 m3 m4 g now), Some tt)
  | _ => (st', None)
  end.

Definition marks_to_grade_point (m : float) : Z :=
  if PyNum.ge m 90 then 10
  else if PyNum.ge m 80 then 9
  else if PyNum.ge m 70 then 8
  else if PyNum.ge m 60 then 7
  else if PyNum.ge m 50 then 6
  else if PyNum.ge m 40 then 5
  else 0.

(** [None] is the ZeroDivisionError of an empty list. *)
Definition compute_sgpa (ms : list float) : option float :=
  let gps := map marks_to_grade_point ms in
  PyNum.int_truediv (PyNum.sum_ints gps) (Z.of_nat (List.length gps)).

Definition compute_year_cgpa (d : records) (y : Z) : option float :=
  match records_get (y, 1) d, records_get (y, 2) d with
  | Some s1, Some s2 => Some (PrimFloat.div (PrimFloat.add (sgpa s1) (sgpa s2)) 2)
  | _, _ => None
  end.

Definition compute_overall_cgpa (d : records) : option float :=
  match d with
  | [] => None
  | _ :: _ =>
      let s_list := map sgpa (PyDict.values d) in
      match s_list with
      | [] => None
      | _ :: _ =>
          PyNum.float_div_int (PyNum.sum_floats s_list) (Z.of_nat (List.length s_list))
      end
  end.

(** *** Routes.  A request handler maps the store to the store afterwards
    and what it hands to Flask; wherever a result is an [option], [None] is
    an exception that escapes the handler. *)

(** [flash(message, category)] before [redirect(url_for("index"))]. *)
Inductive flash : Type :=
| InvalidNumbers            (** "Please enter valid numbers ...", danger *)
| InvalidYearSemester       (** "Year must be 1-4 and Semester must be 1 or 2.", danger *)
| InvalidMark (i : nat)     (** "Subject {i} marks must be between 0 and 100.", danger *)
| Saved (y s : Z) (sgpa_text : string)
                            (** "Saved: Year {y} Sem {s} - SGPA {sgpa:.2f}", success *)
| GraphReset.               (** "Graph data reset ...", success *)

(** [request.form]. *)
Definition form : Type := string -> option string.

(** [request.form.get(name, default)] with the empty string as default. *)
Definition form_get (f : form) (name : string) : string :=
  match f name with
  | Some v => v
  | None => EmptyString
  end.

(** The validation loop over [enumerate(marks, start=i)]: the number of the
    first subject whose mark fails the test. *)
Fixpoint first_bad_mark (i : nat) (ms : list float) : option nat :=
  match ms with
  | [] => None
  | m :: rest =>
      if PyNum.lt m 0 || PyNum.gt m 100 then Some i
      else first_bad_mark (S i) rest
  end.

Definition submit (f : form) (now : string) (st : store) : store * option flash :=
  match PyText.py_int (form_get f "year"), PyText.py_int (form_get f "semester"),
        PyText.py_float (form_get f "m1"), PyText.py_float (form_get f "m2"),
        PyText.py_float (form_get f "m3"), PyText.py_float (form_get f "m4"),
        PyText.py_float (form_get f "m5") with
  | Some y, Some s, Some m1, Some m2, Some m3, Some m4, Some m5 =>
      let ms := [m1; m2; m3; m4; m5] in
      if negb (existsb (Z.eqb y) [1; 2; 3; 4]) || negb (existsb (Z.eqb s) [1; 2])
      then (st, Some InvalidYearSemester)
      else
        match first_bad_mark 1 ms with
        | Some i => (st, Some (InvalidMark i))
        | None =>
            match compute_sgpa ms with
            | Some g =>
                match save_record y s ms g now st with
                | (st', Some _) => (st', Some (Saved y s (PyText.format_fixed 2 g)))
                | (st', None) => (st', None)
                end
            | None => (st, None)
            end
        end
  | _, _, _, _, _, _, _ => (st, Some InvalidNumbers)
  end.

(** [for y in range(1, 5): for s in [1, 2]]. *)
Definition slots : list key :=
  flat_map (fun y => map (fun s => (y, s)) [1; 2]) [1; 2; 3; 4].

(** [f"{y}-{s}"]. *)
Definition slot_label (k : key) : string :=
  (PyText.str_int (fst k) ++ "-" ++ PyText.str_int (snd k))%string.

(** The lists [labels] and [values] of [graph_png]; [None] marks a slot
    without a record. *)
Definition trend_series (d : records) : list string * list (option float) :=
  (map slot_label slots,
   map (fun k => option_map sgpa (records_get k d)) slots).

(** The loop over [enumerate(values)]: index and value of every slot that
    has one ([xs] and [ys], zipped). *)
Fixpoint present_points (idx : nat) (vs : list (option float)) : list (nat * float) :=
  match vs with
  | [] => []
  | Some v :: rest => (idx, v) :: present_points (S idx) rest
  | None :: rest => present_points (S idx) rest
  end.

(** What [graph_png] asks matplotlib to draw. *)
Inductive chart : Type :=
| TrendPlot (xs : list nat) (ys : list float)
            (xticks : list nat) (xticklabels : list string)
            (annotations : list (nat * float * string))
| NoDataPlaceholder.        (** "No data yet ...", axes off *)

(** The float literal [0.1]. *)
Definition one_tenth : float := 0x1.999999999999ap-4%float.

Definition draw (d : records) : chart :=
  let (labels, vs) := trend_series d in
  let pts := present_points 0 vs in
  let xs := map fst pts in
  let ys := map snd pts in
  match ys with
  | _ :: _ =>
      TrendPlot xs ys (seq 0 (List.length labels)) labels
        (map (fun p => (fst p, PrimFloat.add (snd p) one_tenth,
                        PyText.format_fixed 1 (snd p))) pts)
  | [] => NoDataPlaceholder
  end.

Definition graph_png (st : store) : store * option chart :=
  let (st', loaded) := load_records st in
  (st', option_map draw loaded).

Definition reset_graph (st : store) : store * option flash :=
  (Some [header_row], Some GraphReset).

(** One line of the table of the index page. *)
Record table_row : Type := mkTableRow {
  row_year : Z;
  row_semester : Z;
  row_marks : option (list float);
  row_sgpa : option string;
  row_timestamp : option cell
}.

(** The arguments of [render_template] in [index]. *)
Record index_page : Type := mkIndexPage {
  table_rows : list table_row;
  year_cgpas : list (Z * option float);
  overall_cgpa : option float;
  selected_year : option Z;
  selected_year_cgpa : option float
}.

(** [index()]; [year_query] is the query argument of that name, if any:
    [request.args.get("year_query", type=int)] is [None] when it is missing
    or is no int. *)
Definition index (year_query : option string) (st : store)
  : store * option index_page :=
  let (st', loaded) := load_records st in
  (st',
   option_map
     (fun d =>
        let q := match year_query with
                 | Some v => PyText.py_int v
                 | None => None
                 end in
        mkIndexPage
          (map (fun k =>
                  let rec := records_get k d in
                  mkTableRow (fst k) (snd k)
                    (option_map marks rec)
                    (option_map (fun r => PyText.format_fixed 2 (sgpa r)) rec)
                    (match rec with Some r => timestamp r | None => None end))
               slots)
          (map (fun y => (y, compute_year_cgpa d y)) [1; 2; 3; 4])
          (compute_overall_cgpa d)
          q
          (match q with
           | Some y =>
               if existsb (Z.eqb y) [1; 2; 3; 4] then compute_year_cgpa d y
               else None
           | None => None
           end))
     loaded).

(** ** Vocabulary of the statements below *)

(** A form given by its fields, first occurrence first (what
    [request.form.get] sees of a POST body). *)
Fixpoint form_of (fields : list (string * string)) : form :=
  fun name =>
    match fields with
    | [] => None
    | (n, v) :: rest => if String.eqb n name then Some v else form_of rest name
    end.

(** The form of the page: year, semester and the five marks. *)
Definition marks_form (y s m1 m2 m3 m4 m5 : string) : form :=
  form_of [("year", y); ("semester", s); ("m1", m1); ("m2", m2);
           ("m3", m3); ("m4", m4); ("m5", m5)]%string.

(** The rows after the header, each as a record, in file order; [None] as
    soon as one of them does not parse.  Blank rows are no rows. *)
Fixpoint parse_rows (fieldnames : row) (body : list row) : option (list record) :=
  match body with
  | [] => Some []
  | r :: rest =>
      if is_blank r then parse_rows fieldnames rest
      else
        match parse_record fieldnames r, parse_rows fieldnames rest with
        | Some rec, Some recs => Some (rec :: recs)
        | _, _ => None
        end
  end.

Definition parse_file (f : file) : option (list record) :=
  match f with
  | [] => Some []
  | fieldnames :: body => parse_rows fieldnames body
  end.

Definition record_key (r : record) : key := (year r, semester r).

(** The last record of a sequence that carries the key [k]. *)
Fixpoint last_with_key (k : key) (rs : list record) : option record :=
  match rs with
  | [] => None
  | r :: rest =>
      match last_with_key k rest with
      | Some r' => Some r'
      | None => if key_eqb k (record_key r) then Some r else None
      end
  end.

(** The record that one row of the data file stands for, its fields taken
    by position in the nine-column schema: year, semester, the five marks,
    the sgpa, the timestamp.  The timestamp is the ninth field (none in a
    row of eight fields), further fields do not count; [None] when the row
    has fewer than eight fields or a number does not read. *)
Definition row_record (r : row) : option record :=
  match r with
  | cy :: cs :: c1 :: c2 :: c3 :: c4 :: c5 :: cg :: rest =>
      match cell_int cy, cell_int cs, cell_float c1, cell_float c2,
            cell_float c3, cell_float c4, cell_float c5, cell_float cg with
      | Some y, Some s, Some m1, Some m2, Some m3, Some m4, Some m5, Some g =>
          Some (mkRecord y s [m1; m2; m3; m4; m5] g (hd_error rest))
      | _, _, _, _, _, _, _, _ => None
      end
  | _ => None
  end.

(** The rows that carry fields: a blank line of the file is no row. *)
Definition data_rows (body : list row) : list row :=
  filter (fun r => negb (is_blank r)) body.

(** The file is absent, or starts with the header and every row parses. *)
Definition store_ok (st : store) : Prop :=
  match st with
  | None => True
  | Some f => exists body recs, f = header_row :: body /\
                                parse_rows header_row body = Some recs
  end.

(** Every row of [st] is still in [st'], at the same place. *)
Definition extends (st st' : store) : Prop :=
  match st with
  | None => True
  | Some f => exists more, st' = Some (f ++ more)
  end.

(** The number of rows after the header. *)
Definition row_count (st : store) : nat :=
  match st with
  | None => 0%nat
  | Some f => List.length (tl f)
  end.

(** The decimal expansion of [k / 5] with two fractional digits:
    "8.20" for [k = 41]. *)
Definition two_decimals_of_fifth (k : Z) : string :=
  (PyText.str_int (k / 5) ++ "." ++
   String (PyText.digit_char (2 * (k mod 5))) (String "0" EmptyString))%string.

(** What holds of [k / 5], the SGPA of five grade points that sum to [k]:
    five times it is [k] again, it lies in [[0, 10]], its two-decimal text is
    the decimal expansion of [k / 5], and that text reads back as the same
    float. *)
Definition fifth_ok (k : Z) : bool :=
  match PyNum.int_truediv k 5 with
  | Some g =>
      Leibniz.eqb (PrimFloat.mul g 5) (PyNum.float_of_int k)
      && PrimFloat.leb 0 g && PrimFloat.leb g 10
      && String.eqb (PyText.format_fixed 2 g) (two_decimals_of_fifth k)
      && match PyText.py_float (PyText.format_fixed 2 g) with
         | Some g' => Leibniz.eqb g' g
         | None => false
         end
  | None => false
  end.

(** ** Requests *)

(** One request to the application. *)
Inductive request : Type :=
| GetIndex (year_query : option string)
| PostSubmit (f : form) (now : string)
| GetGraph
| PostReset.

(** The store after the handler of the request has run. *)
Definition serve (r : request) (st : store) : store :=
  match r with
  | GetIndex q => fst (index q st)
  | PostSubmit f now => fst (submit f now st)
  | GetGraph => fst (graph_png st)
  | PostReset => fst (reset_graph st)
  end.

(** Is the result a value (rather than an exception that escapes)? *)
Definition returned {A : Type} (o : option A) : bool :=
  match o with
  | Some _ => true
  | None => false
  end.

(** Does the handler of the request return? *)
Definition responds (r : request) (st : store) : bool :=
  match r with
  | GetIndex q => returned (snd (index q st))
  | PostSubmit f now => returned (snd (submit f now st))
  | GetGraph => returned (snd (graph_png st))
  | PostReset => returned (snd (reset_graph st))
  end.

(** The store after a sequence of requests, served one after the other. *)
Definition serve_all (rs : list request) (st : store) : store :=
  fold_left (fun s r => serve r s) rs st.

(** The requests that only read the store. *)
Definition reads (r : request) : bool :=
  match r with
  | GetIndex _ | GetGraph => true
  | PostSubmit _ _ | PostReset => false
  end.

(** The test of the validation loop of [submit] on one mark. *)
Definition mark_refused (m : float) : bool := PyNum.lt m 0 || PyNum.gt m 100.

(** The five mark fields of the form, converted. *)
Definition form_marks (f : form) : list (option float) :=
  map (fun n => PyText.py_float (form_get f n)) ["m1"; "m2"; "m3"; "m4"; "m5"]%string.

(** The decimal expansion of [n / 10] with two fractional digits:
    "7.30" for [n = 73]. *)
Definition two_decimals_of_tenth (n : Z) : string :=
  (PyText.str_int (n / 10) ++ "." ++
   String (PyText.digit_char (n mod 10)) (String "0" EmptyString))%string.

(** What holds of the mean [(a/5 + b/5) / 2] of two SGPAs: it lies in
    [[0, 10]], does not depend on the order of the two, and its two-decimal
    text is the decimal expansion of [(a + b) / 10]. *)
Definition tenth_ok (a b : Z) : bool :=
  match PyNum.int_truediv a 5, PyNum.int_truediv b 5 with
  | Some x, Some y =>
      let v := PrimFloat.div (PrimFloat.add x y) 2 in
      PrimFloat.leb 0 v && PrimFloat.leb v 10
      && Leibniz.eqb v (PrimFloat.div (PrimFloat.add y x) 2)
      && String.eqb (PyText.format_fixed 2 v) (two_decimals_of_tenth (a + b))
  | _, _ => false
  end.

(** What holds of the overall CGPA of a single SGPA [k / 5]: it is that
    SGPA. *)
Definition single_ok (k : Z) : bool :=
  match PyNum.int_truediv k 5 with
  | Some g =>
      match PyNum.float_div_int (PyNum.sum_floats [g]) 1 with
      | Some v => Leibniz.eqb v g
      | None => false
      end
  | None => false
  end.

(** What holds of two SGPAs [a / 5] and [b / 5]: they compare as the sums
    [a] and [b] do, and are equal only when the sums are. *)
Definition fifth_order_ok (a b : Z) : bool :=
  match PyNum.int_truediv a 5, PyNum.int_truediv b 5 with
  | Some x, Some y =>
      Bool.eqb (PrimFloat.leb x y) (a <=? b) && Bool.eqb (Leibniz.eqb x y) (a =? b)
  | _, _ => false
  end.

(** * Properties *)

(** ** The order of binary64 values *)

Module FloatOrder.

Lemma SFcompare_antisym (a b : spec_float) :
  SFcompare b a = option_map CompOpp (SFcompare a b).
Proof.
  destruct a as [sa|sa| |sa ma ea], b as [sb|sb| |sb mb eb]; simpl;
    try reflexivity;
    try (destruct sa; reflexivity); try (destruct sb; reflexivity);
    try (destruct sa, sb; reflexivity).
  change (Pos.compare_cont Eq mb ma) with (mb ?= ma)%positive.
  change (Pos.compare_cont Eq ma mb) with (ma ?= mb)%positive.
  rewrite (Z.compare_antisym ea eb), (Pos.compare_antisym ma mb).
  destruct sa, sb; simpl; try reflexivity;
    destruct (ea ?= eb); simpl; try reflexivity;
    destruct (ma ?= mb)%positive; reflexivity.
Qed.

Lemma SFleb_trans (a b c : spec_float) :
  SFleb a b = true -> SFleb b c = true -> SFleb a c = true.
Proof.
  unfold SFleb.
  destruct a as [sa|sa| |sa ma ea], b as [sb|sb| |sb mb eb],
           c as [sc|sc| |sc mc ec]; simpl;
    try discriminate; try reflexivity;
    try (destruct sa; simpl; congruence);
    try (destruct sb; simpl; congruence);
    try (destruct sc; simpl; congruence);
    try (destruct sa, sb; simpl; congruence);
    try (destruct sa, sc; simpl; congruence);
    try (destruct sb, sc; simpl; congruence);
    try (destruct sa, sb, sc; simpl; congruence).
  change (Pos.compare_cont Eq ma mb) with (ma ?= mb)%positive.
  change (Pos.compare_cont Eq mb mc) with (mb ?= mc)%positive.
  change (Pos.compare_cont Eq ma mc) with (ma ?= mc)%positive.
  destruct sa, sb, sc; simpl; try discriminate; try reflexivity;
    destruct (Z.compare_spec ea eb), (Z.compare_spec eb ec), (Z.compare_spec ea ec);
    simpl; try discriminate; try reflexivity; try lia; subst;
    destruct (Pos.compare_spec ma mb), (Pos.compare_spec mb mc), (Pos.compare_spec ma mc);
    simpl; try discriminate; try reflexivity; try lia.
Qed.

Lemma SFcompare_defined (a b : spec_float) :
  SFleb a a = true -> SFleb b b = true -> SFcompare a b <> None.
Proof.
  unfold SFleb.
  destruct a as [sa|sa| |sa ma ea], b as [sb|sb| |sb mb eb]; simpl;
    intros; discriminate.
Qed.

Lemma SFleb_false_ltb (a b : spec_float) :
  SFleb a a = true -> SFleb b b = true -> SFleb a b = false -> SFltb b a = true.
Proof.
  intros Ha Hb Hab. unfold SFltb. rewrite SFcompare_antisym.
  pose proof (SFcompare_defined a b Ha Hb) as Hd.
  unfold SFleb in Hab.
  destruct (SFcompare a b) as [[ | | ]|]; simpl; congruence.
Qed.

Lemma SFltb_leb_false (a b : spec_float) :
  SFltb b a = true -> SFleb a b = false.
Proof.
  unfold SFltb, SFleb. rewrite (SFcompare_antisym a b).
  destruct (SFcompare a b) as [[ | | ]|]; simpl; congruence.
Qed.

Lemma SFleb_refl (a : spec_float) : a <> S754_nan -> SFleb a a = true.
Proof.
  unfold SFleb. destruct a as [sa|sa| |sa ma ea]; simpl; intros H;
    try reflexivity; try congruence; try (destruct sa; reflexivity).
  change (Pos.compare_cont Eq ma ma) with (ma ?= ma)%positive.
  rewrite Z.compare_refl, Pos.compare_refl. destruct sa; reflexivity.
Qed.

Lemma SFleb_not_nan (a b : spec_float) :
  SFleb a b = true -> a <> S754_nan /\ b <> S754_nan.
Proof.
  unfold SFleb.
  destruct a as [sa|sa| |sa ma ea], b as [sb|sb| |sb mb eb]; simpl;
    intros H; split; congruence.
Qed.

Lemma SFleb_refl_r (a b : spec_float) : SFleb a b = true -> SFleb b b = true.
Proof. intros H. apply SFleb_refl, (SFleb_not_nan a b H). Qed.

(** The same facts on the primitive type. *)

Lemma leb_trans (x y z : float) :
  PrimFloat.leb x y = true -> PrimFloat.leb y z = true -> PrimFloat.leb x z = true.
Proof. rewrite !leb_spec. apply SFleb_trans. Qed.

Lemma ltb_leb_false (x y : float) :
  PrimFloat.ltb y x = true -> PrimFloat.leb x y = false.
Proof. rewrite ltb_spec, leb_spec. apply SFltb_leb_false. Qed.

Lemma leb_false_ltb' (x y : float) :
  PrimFloat.leb x x = true -> PrimFloat.leb y y = true ->
  PrimFloat.leb x y = false -> PrimFloat.ltb y x = true.
Proof. rewrite ltb_spec, !leb_spec. apply SFleb_false_ltb. Qed.

(** Below a threshold: not at or above it, and comparable at all. *)
Lemma leb_false_ltb (c c' x : float) :
  PrimFloat.leb c c = true -> PrimFloat.leb c' x = true ->
  PrimFloat.leb c x = false -> PrimFloat.ltb x c = true.
Proof.
  rewrite ltb_spec, !leb_spec. intros Hc Hx Hcx.
  apply SFleb_false_ltb; eauto using SFleb_refl_r.
Qed.

End FloatOrder.

(** ** Grade conversion *)

Lemma grade_point_values (m : float) :
  In (marks_to_grade_point m) [0; 5; 6; 7; 8; 9; 10].
Proof.
  unfold marks_to_grade_point.
  repeat match goal with |- context [if ?b then _ else _] => destruct b end;
    simpl; auto 10.
Qed.

Lemma grade_point_range (m : float) : 0 <= marks_to_grade_point m <= 10.
Proof.
  pose proof (grade_point_values m) as H. simpl in H.
  repeat (destruct H as [H | H]; [lia | ]). contradiction.
Qed.

Lemma grade_point_monotone (m m' : float) :
  PrimFloat.leb m m' = true -> marks_to_grade_point m <= marks_to_grade_point m'.
Proof.
  intros Hle.
  assert (up : forall c, PyNum.ge m c = true -> PyNum.ge m' c = true).
  { unfold PyNum.ge. intros c Hc. exact (FloatOrder.leb_trans c m m' Hc Hle). }
  unfold marks_to_grade_point.
  repeat match goal with
         | |- context [PyNum.ge m ?c] =>
             let E := fresh "E" in
             destruct (PyNum.ge m c) eqn:E; [apply up in E; rewrite ?E | ]
         end;
  repeat match goal with
         | |- context [PyNum.ge m' ?c] => destruct (PyNum.ge m' c)
         end; lia.
Qed.


Lemma band_iff (lo hi m : float) :
  PrimFloat.leb hi hi = true ->
  (PrimFloat.leb hi m = false /\ PrimFloat.leb lo m = true) <->
  (PrimFloat.leb lo m = true /\ PrimFloat.ltb m hi = true).
Proof.
  intros Hhi. split; intros [H1 H2]; split; auto.
  - exact (FloatOrder.leb_false_ltb hi lo m Hhi H2 H1).
  - exact (FloatOrder.ltb_leb_false hi m H2).
Qed.

Lemma ge_chain (lo hi m : float) :
  PrimFloat.leb lo hi = true -> PyNum.ge m hi = true -> PyNum.ge m lo = true.
Proof. unfold PyNum.ge. intros H1 H2. exact (FloatOrder.leb_trans lo hi m H1 H2). Qed.

(** C3.  For every float [m], out-of-range values included,
    [marks_to_grade_point m] is 10 when [m >= 90], else 9 when [m >= 80],
    else 8 when [m >= 70], else 7 when [m >= 60], else 6 when [m >= 50],
    else 5 when [m >= 40], else 0.  Each grade point is returned exactly on
    its band of marks ([80 <= m < 90] for 9, ...; 0 is returned exactly when
    [m >= 40] fails, NaN included).  The result lies in
    {0, 5, 6, 7, 8, 9, 10}, and the function is monotonically
    non-decreasing in [m]. *)
Theorem grade_point_table (m : float) :
  marks_to_grade_point m =
    (if PrimFloat.leb 90 m then 10 else if PrimFloat.leb 80 m then 9
     else if PrimFloat.leb 70 m then 8 else if PrimFloat.leb 60 m then 7
     else if PrimFloat.leb 50 m then 6 else if PrimFloat.leb 40 m then 5 else 0)
  /\ (marks_to_grade_point m = 10 <-> PrimFloat.leb 90 m = true)
  /\ (marks_to_grade_point m = 9 <->
      PrimFloat.leb 80 m = true /\ PrimFloat.ltb m 90 = true)
  /\ (marks_to_grade_point m = 8 <->
      PrimFloat.leb 70 m = true /\ PrimFloat.ltb m 80 = true)
  /\ (marks_to_grade_point m = 7 <->
      PrimFloat.leb 60 m = true /\ PrimFloat.ltb m 70 = true)
  /\ (marks_to_grade_point m = 6 <->
      PrimFloat.leb 50 m = true /\ PrimFloat.ltb m 60 = true)
  /\ (marks_to_grade_point m = 5 <->
      PrimFloat.leb 40 m = true /\ PrimFloat.ltb m 50 = true)
  /\ (marks_to_grade_point m = 0 <-> PrimFloat.leb 40 m = false)
  /\ In (marks_to_grade_point m) [0; 5; 6; 7; 8; 9; 10]
  /\ (forall m' : float, PrimFloat.leb m m' = true ->
        marks_to_grade_point m <= marks_to_grade_point m').
Proof.
  split; [reflexivity | ].
  pose proof (ge_chain 80 90 m eq_refl) as Up90.
  pose proof (ge_chain 70 80 m eq_refl) as Up80.
  pose proof (ge_chain 60 70 m eq_refl) as Up70.
  pose proof (ge_chain 50 60 m eq_refl) as Up60.
  pose proof (ge_chain 40 50 m eq_refl) as Up50.
  assert (B : forall lo hi : float, PrimFloat.leb hi hi = true ->
            (PyNum.ge m hi = false /\ PyNum.ge m lo = true) <->
            (PrimFloat.leb lo m = true /\ PrimFloat.ltb m hi = true))
    by (intros lo hi; exact (band_iff lo hi m)).
  rewrite <- (B 80%float 90%float eq_refl), <- (B 70%float 80%float eq_refl),
          <- (B 60%float 70%float eq_refl), <- (B 50%float 60%float eq_refl),
          <- (B 40%float 50%float eq_refl).
  change (PrimFloat.leb 90 m) with (PyNum.ge m 90).
  change (PrimFloat.leb 40 m) with (PyNum.ge m 40).
  clear B.
  split; [ | split; [ | split; [ | split; [ | split; [ | split; [ | split;
    [ | split; [apply grade_point_values | apply grade_point_monotone]]]]]]]];
    unfold marks_to_grade_point;
    destruct (PyNum.ge m 90) eqn:E90; destruct (PyNum.ge m 80) eqn:E80;
    destruct (PyNum.ge m 70) eqn:E70; destruct (PyNum.ge m 60) eqn:E60;
    destruct (PyNum.ge m 50) eqn:E50; destruct (PyNum.ge m 40) eqn:E40;
    repeat match goal with
           | H : ?a = true -> _, E : ?a = true |- _ => specialize (H E)
           end;
    try congruence;
    intuition (try congruence; try lia).
Qed.

(** ** Text conversions *)

Module TextFacts.
Import PyText.

Lemma lstrip_id (cs : list ascii) :
  match cs with [] => True | c :: _ => is_space c = false end -> lstrip cs = cs.
Proof. destruct cs as [|c cs]; simpl; [reflexivity | intros ->; reflexivity]. Qed.

Lemma strip_id (cs : list ascii) :
  Forall (fun c => is_space c = false) cs -> strip cs = cs.
Proof.
  intros H. unfold strip.
  rewrite (lstrip_id cs) by (destruct H; auto).
  apply Forall_rev in H.
  rewrite lstrip_id by (destruct H; auto).
  apply rev_involutive.
Qed.

Lemma digit_not_space (c : ascii) : is_digit c = true -> is_space c = false.
Proof.
  destruct c as [[|] [|] [|] [|] [|] [|] [|] [|]]; vm_compute; congruence.
Qed.

Lemma uint_chars_digits (d : Decimal.uint) :
  Forall (fun c => is_digit c = true) (chars (DecimalString.NilEmpty.string_of_uint d)).
Proof. induction d; simpl; constructor; auto. Qed.

Lemma scan_digits_step (c : ascii) (rest : list ascii) :
  is_digit c = true -> hd "0"%char rest <> "_"%char ->
  scan_digits (c :: rest) =
    match push_digit c (fst (scan_digits rest)) with
    | Some u => (u, snd (scan_digits rest))
    | None => (Decimal.Nil, c :: rest)
    end.
Proof.
  intros Hc Hr. cbn [scan_digits]. rewrite Hc.
  destruct rest as [|c' r]; [reflexivity | ].
  destruct c' as [[|] [|] [|] [|] [|] [|] [|] [|]]; try reflexivity.
  exfalso. apply Hr. reflexivity.
Qed.

Lemma uint_chars_head (d : Decimal.uint) :
  hd "0"%char (chars (DecimalString.NilEmpty.string_of_uint d)) <> "_"%char.
Proof. destruct d; simpl; intros H; discriminate H. Qed.

Lemma scan_digits_uint (d : Decimal.uint) :
  scan_digits (chars (DecimalString.NilEmpty.string_of_uint d)) = (d, []).
Proof.
  induction d; [reflexivity | ..];
    cbn [DecimalString.NilEmpty.string_of_uint];
    unfold chars in *; cbn [list_ascii_of_string];
    (rewrite scan_digits_step;
     [rewrite IHd; reflexivity | reflexivity | apply uint_chars_head]).
Qed.

Lemma int_chars_no_space (z : Z) :
  Forall (fun c => is_space c = false) (chars (str_int z)).
Proof.
  assert (U : forall d, Forall (fun c => is_space c = false)
                          (chars (DecimalString.NilZero.string_of_uint d))).
  { intros d.
    assert (E : DecimalString.NilZero.string_of_uint d = "0"%string \/
                DecimalString.NilZero.string_of_uint d =
                  DecimalString.NilEmpty.string_of_uint d)
      by (destruct d; auto).
    destruct E as [-> | ->].
    - repeat constructor.
    - eapply Forall_impl; [ | apply uint_chars_digits].
      intros c Hc. now apply digit_not_space. }
  unfold str_int. destruct (Z.to_int z) as [d|d]; simpl.
  - apply U.
  - constructor; [reflexivity | apply U].
Qed.

(** [int(str(n)) == n]. *)
Lemma py_int_str_int (z : Z) : py_int (str_int z) = Some z.
Proof.
  unfold py_int. rewrite strip_id by apply int_chars_no_space.
  unfold str_int.
  assert (P : forall p, DecimalString.NilZero.string_of_uint (Pos.to_uint p) =
                        DecimalString.NilEmpty.string_of_uint (Pos.to_uint p)).
  { intros p. pose proof (DecimalPos.Unsigned.to_uint_nonnil p).
    destruct (Pos.to_uint p); [congruence | reflexivity ..]. }
  assert (S : forall d, d <> Decimal.Nil ->
              scan_sign (chars (DecimalString.NilEmpty.string_of_uint d)) =
              (false, chars (DecimalString.NilEmpty.string_of_uint d))).
  { intros d Hd. destruct d; try congruence; reflexivity. }
  destruct z as [|p|p]; [reflexivity | | ].
  - cbn [Z.to_int DecimalString.NilZero.string_of_int]. rewrite P.
    rewrite S by apply DecimalPos.Unsigned.to_uint_nonnil.
    rewrite scan_digits_uint.
    pose proof (DecimalPos.Unsigned.to_uint_nonnil p) as Hn.
    pose proof (DecimalZ.of_to (Zpos p)) as Hz. cbn [Z.to_int] in Hz.
    destruct (Pos.to_uint p); congruence.
  - cbn [Z.to_int DecimalString.NilZero.string_of_int]. rewrite P.
    unfold chars. cbn [list_ascii_of_string scan_sign].
    fold (chars (DecimalString.NilEmpty.string_of_uint (Pos.to_uint p))).
    rewrite scan_digits_uint.
    pose proof (DecimalPos.Unsigned.to_uint_nonnil p) as Hn.
    pose proof (DecimalZ.of_to (Zneg p)) as Hz. cbn [Z.to_int] in Hz.
    destruct (Pos.to_uint p); congruence.
Qed.

(** *** The text of a float with two decimals *)

Lemma chars_app (a b : string) : chars (a ++ b) = chars a ++ chars b.
Proof. unfold chars. induction a as [|c a IH]; simpl; [reflexivity | now rewrite IH]. Qed.

Lemma digit_facts (c : ascii) :
  is_digit c = true ->
  lower c = c /\ c <> "i"%char /\ c <> "n"%char /\ c <> "_"%char /\
  (forall r, scan_sign (c :: r) = (false, c :: r)) /\
  (forall u, exists u', push_digit c u = Some u' /\ u' <> Decimal.Nil).
Proof.
  destruct c as [[|] [|] [|] [|] [|] [|] [|] [|]]; vm_compute; intros H;
    try discriminate H;
    (repeat split; try reflexivity; try (intros E; discriminate E);
     intros u; eexists; split; [reflexivity | intros E; discriminate E]).
Qed.

Lemma scan_digits_stop (rest : list ascii) :
  match rest with [] => True | c :: _ => is_digit c = false end ->
  scan_digits rest = (Decimal.Nil, rest).
Proof. destruct rest as [|c r]; [reflexivity | ]. intros H. cbn [scan_digits]. now rewrite H. Qed.

Lemma scan_digits_digits (ds rest : list ascii) :
  Forall (fun c => is_digit c = true) ds -> ds <> [] ->
  match rest with [] => True | c :: _ => is_digit c = false /\ c <> "_"%char end ->
  exists u : Decimal.uint, u <> Decimal.Nil /\ scan_digits (ds ++ rest) = (u, rest).
Proof.
  intros Hd Hne Hr. induction Hd as [|c ds Hc Hds IH]; [congruence | ].
  destruct (digit_facts c Hc) as (_ & _ & _ & _ & _ & Hp).
  cbn [app]. destruct ds as [|c2 ds].
  - cbn [app]. rewrite scan_digits_step; [ | exact Hc | ].
    + rewrite scan_digits_stop by (destruct rest; tauto). cbn [fst snd].
      destruct (Hp Decimal.Nil) as (u' & -> & Hu'). eauto.
    + destruct rest as [|c' r]; cbn [hd]; [intros E; discriminate E | tauto].
  - destruct IH as (u & Hu & E); [congruence | ].
    rewrite scan_digits_step; [ | exact Hc | ].
    + rewrite E. cbn [fst snd]. destruct (Hp u) as (u' & -> & Hu'). eauto.
    + cbn [app hd]. inversion Hds as [|? ? Hc2 _]; subst.
      now destruct (digit_facts c2 Hc2) as (_ & _ & _ & ? & _).
Qed.

Lemma spells_digit (w : string) (c : ascii) (r : list ascii) :
  is_digit c = true ->
  match chars w with x :: _ => x = "i"%char \/ x = "n"%char | [] => True end ->
  spells w (c :: r) = false.
Proof.
  intros Hc Hw. destruct (digit_facts c Hc) as (Hl & Hi & Hn & _).
  unfold spells. destruct (list_eq_dec ascii_dec (map lower (c :: r)) (chars w)) as [E|]; [ | reflexivity].
  cbn [map] in E. rewrite Hl in E. rewrite <- E in Hw. destruct Hw; congruence.
Qed.

(** [float] reads a numeral made of digits, a point and digits, with or
    without a minus sign. *)
Lemma py_float_point (neg : bool) (ds fs : list ascii) (s : string) :
  chars s = (if neg then ["-"%char] else []) ++ ds ++ "."%char :: fs ->
  Forall (fun c => is_digit c = true) ds -> ds <> [] ->
  Forall (fun c => is_digit c = true) fs -> fs <> [] ->
  exists x : float, py_float s = Some x.
Proof.
  intros Hs Hds Hne Hfs Hnf.
  assert (Hsp : Forall (fun c => is_space c = false) (chars s)).
  { rewrite Hs. apply Forall_app. split; [destruct neg; repeat constructor | ].
    apply Forall_app. split.
    - eapply Forall_impl; [ | exact Hds]. intros c. apply digit_not_space.
    - constructor; [reflexivity | ].
      eapply Forall_impl; [ | exact Hfs]. intros c. apply digit_not_space. }
  unfold py_float. rewrite (strip_id _ Hsp), Hs.
  destruct ds as [|c ds]; [congruence | ].
  inversion Hds as [|? ? Hc Hds']; subst.
  destruct (digit_facts c Hc) as (_ & _ & _ & _ & Hsign & _).
  assert (Sg : scan_sign ((if neg then ["-"%char] else []) ++ (c :: ds) ++ "."%char :: fs) =
               (neg, (c :: ds) ++ "."%char :: fs)).
  { destruct neg; [reflexivity | ]. cbn [app]. apply Hsign. }
  rewrite Sg. cbn [app].
  rewrite !(spells_digit _ c _ Hc) by (cbn; auto). cbn [orb].
  destruct (scan_digits_digits (c :: ds) ("."%char :: fs) Hds Hne) as (u & Hu & E);
    [split; [reflexivity | intros X; discriminate X] | ].
  cbn [app] in E. rewrite E.
  destruct (scan_digits_digits fs [] Hfs Hnf I) as (v & Hv & F).
  rewrite app_nil_r in F. rewrite F.
  destruct u; [congruence | ..]; cbn [scan_exponent]; eauto.
Qed.

Lemma div_half_even_nonneg (a b : Z) : 0 <= a -> 0 < b -> 0 <= div_half_even a b.
Proof.
  intros Ha Hb. unfold div_half_even.
  pose proof (Z.div_pos a b Ha Hb).
  destruct (2 * (a mod b) ?= b); [destruct (Z.even (a / b)) | | ]; lia.
Qed.

Lemma scaled_round_nonneg (p : nat) (m : positive) (e : Z) : 0 <= scaled_round p m e.
Proof.
  unfold scaled_round.
  assert (0 <= Z.pos m * 10 ^ Z.of_nat p) by (apply Z.mul_nonneg_nonneg; [lia | apply Z.pow_nonneg; lia]).
  destruct (0 <=? e) eqn:E.
  - apply Z.mul_nonneg_nonneg; [assumption | apply Z.pow_nonneg; lia].
  - apply Z.leb_gt in E. apply div_half_even_nonneg; [assumption | apply Z.pow_pos_nonneg; lia].
Qed.

Lemma digit_char_digit (x : Z) : is_digit (digit_char (x mod 10)) = true.
Proof.
  assert (H : 0 <= x mod 10 < 10) by (apply Z.mod_pos_bound; lia).
  assert (C : x mod 10 = 0 \/ x mod 10 = 1 \/ x mod 10 = 2 \/ x mod 10 = 3 \/ x mod 10 = 4 \/
              x mod 10 = 5 \/ x mod 10 = 6 \/ x mod 10 = 7 \/ x mod 10 = 8 \/ x mod 10 = 9) by lia.
  repeat (destruct C as [-> | C]; [reflexivity | ]). now rewrite C.
Qed.

Lemma str_int_digits (q : Z) :
  0 <= q ->
  Forall (fun c => is_digit c = true) (chars (str_int q)) /\ chars (str_int q) <> [].
Proof.
  intros Hq. unfold str_int. destruct q as [|p|p]; [ | | lia].
  - split; [repeat constructor | intros E; discriminate E].
  - cbn [Z.to_int DecimalString.NilZero.string_of_int].
    pose proof (DecimalPos.Unsigned.to_uint_nonnil p) as Hn.
    assert (E : DecimalString.NilZero.string_of_uint (Pos.to_uint p) =
                DecimalString.NilEmpty.string_of_uint (Pos.to_uint p))
      by (destruct (Pos.to_uint p); [congruence | reflexivity ..]).
    rewrite E. split; [apply uint_chars_digits | ].
    destruct (Pos.to_uint p); [congruence | ..]; intros X; discriminate X.
Qed.

(** [float(f"{x:.2f}")] never raises. *)
Lemma py_float_format_fixed (x : float) :
  exists x' : float, py_float (format_fixed 2 x) = Some x'.
Proof.
  assert (F : forall (s : bool) (n : Z), 0 <= n ->
            exists x', py_float ((if s then "-" else "") ++ fixed_text 2 n) = Some x').
  { intros s n Hn.
    apply (py_float_point s (chars (str_int (n / 100)))
             [digit_char ((n mod 100 / 10) mod 10); digit_char ((n mod 100) mod 10)]).
    - rewrite chars_app. unfold fixed_text.
      change (10 ^ Z.of_nat 2) with 100. rewrite chars_app.
      destruct s; reflexivity.
    - apply str_int_digits. apply Z.div_pos; lia.
    - apply str_int_digits. apply Z.div_pos; lia.
    - repeat constructor; apply digit_char_digit.
    - intros E; discriminate E. }
  unfold format_fixed. destruct (Prim2SF x) as [s|s| |s m e].
  - apply F. lia.
  - destruct s; eexists; reflexivity.
  - eexists; reflexivity.
  - apply F. apply scaled_round_nonneg.
Qed.

End TextFacts.

(** ** SGPA *)

Lemma fifth_ok_all : forallb fifth_ok (map Z.of_nat (seq 0 51)) = true.
Proof. vm_compute. reflexivity. Qed.

Lemma fifth_ok_range (k : Z) : 0 <= k <= 50 -> fifth_ok k = true.
Proof.
  intros Hk. pose proof fifth_ok_all as H. rewrite forallb_forall in H.
  apply H. rewrite <- (Z2Nat.id k) by lia. apply in_map, in_seq. lia.
Qed.

Lemma fifth_spec (k : Z) (g : float) :
  0 <= k <= 50 -> PyNum.int_truediv k 5 = Some g ->
  PrimFloat.mul g 5 = PyNum.float_of_int k /\
  PrimFloat.leb 0 g = true /\ PrimFloat.leb g 10 = true /\
  PyText.format_fixed 2 g = two_decimals_of_fifth k /\
  PyText.py_float (PyText.format_fixed 2 g) = Some g.
Proof.
  intros Hk Hg. pose proof (fifth_ok_range k Hk) as H.
  unfold fifth_ok in H. rewrite Hg in H.
  destruct (PyText.py_float (PyText.format_fixed 2 g)) as [g'|];
    [ | rewrite andb_false_r in H; discriminate].
  repeat (apply andb_prop in H; destruct H as [H ?]).
  repeat split; auto.
  - now apply Leibniz.eqb_spec.
  - now apply String.eqb_eq.
  - f_equal. now apply Leibniz.eqb_spec.
Qed.

Lemma compute_sgpa_five (m1 m2 m3 m4 m5 : float) :
  compute_sgpa [m1; m2; m3; m4; m5] =
  PyNum.int_truediv
    (marks_to_grade_point m1 + marks_to_grade_point m2 + marks_to_grade_point m3
     + marks_to_grade_point m4 + marks_to_grade_point m5) 5.
Proof. reflexivity. Qed.

Lemma grade_sum_range (m1 m2 m3 m4 m5 : float) :
  0 <= marks_to_grade_point m1 + marks_to_grade_point m2 + marks_to_grade_point m3
       + marks_to_grade_point m4 + marks_to_grade_point m5 <= 50.
Proof.
  pose proof (grade_point_range m1). pose proof (grade_point_range m2).
  pose proof (grade_point_range m3). pose proof (grade_point_range m4).
  pose proof (grade_point_range m5). lia.
Qed.

(** C4.  For five marks, [compute_sgpa] is the sum of the five grade
    points divided by 5 (each mark weighs the same): it is the binary64
    value nearest to that quotient, and five times it is the sum of the
    grade points again.  In particular the SGPA of five marks of 90 is 10,
    of five marks of 30 is 0, and of 95, 85, 75, 65, 55 is 8.0. *)
Theorem compute_sgpa_mean (m1 m2 m3 m4 m5 : float) :
  let total := marks_to_grade_point m1 + marks_to_grade_point m2
               + marks_to_grade_point m3 + marks_to_grade_point m4
               + marks_to_grade_point m5 in
  compute_sgpa [m1; m2; m3; m4; m5] = PyNum.int_truediv total 5
  /\ (exists g : float,
        compute_sgpa [m1; m2; m3; m4; m5] = Some g /\
        PrimFloat.mul g 5 = PyNum.float_of_int total)
  /\ compute_sgpa [90; 90; 90; 90; 90]%float = Some 10%float
  /\ compute_sgpa [30; 30; 30; 30; 30]%float = Some 0%float
  /\ compute_sgpa [95; 85; 75; 65; 55]%float = Some 8%float.
Proof.
  intros total. split; [apply compute_sgpa_five | ].
  split; [ | repeat split; reflexivity].
  rewrite compute_sgpa_five. fold total.
  pose proof (grade_sum_range m1 m2 m3 m4 m5) as Hr. fold total in Hr.
  destruct (PyNum.int_truediv total 5) as [g|] eqn:Hg; [ | discriminate Hg].
  exists g. split; [reflexivity | ].
  now destruct (fifth_spec total g Hr Hg).
Qed.

(** ** One row, written and read back *)

Lemma row_get_header (c0 c1 c2 c3 c4 c5 c6 c7 c8 : cell) :
  let r := [c0; c1; c2; c3; c4; c5; c6; c7; c8] in
  row_get header_row r "year" = Some (Some c0) /\
  row_get header_row r "semester" = Some (Some c1) /\
  row_get header_row r "m1" = Some (Some c2) /\
  row_get header_row r "m2" = Some (Some c3) /\
  row_get header_row r "m3" = Some (Some c4) /\
  row_get header_row r "m4" = Some (Some c5) /\
  row_get header_row r "m5" = Some (Some c6) /\
  row_get header_row r "sgpa" = Some (Some c7) /\
  row_get header_row r "timestamp" = Some (Some c8).
Proof. repeat split; reflexivity. Qed.

Lemma parse_record_row (y s : Z) (m0 m1 m2 m3 m4 g g' : float) (now : string) :
  PyText.py_float (PyText.format_fixed 2 g) = Some g' ->
  parse_record header_row (record_row y s m0 m1 m2 m3 m4 g now) =
  Some (mkRecord y s [m0; m1; m2; m3; m4] g' (Some (Text now))).
Proof.
  intros Hg. unfold parse_record, field_int, field_float, record_row.
  destruct (row_get_header (Text (PyText.str_int y)) (Text (PyText.str_int s))
              (Repr m0) (Repr m1) (Repr m2) (Repr m3) (Repr m4)
              (Text (PyText.format_fixed 2 g)) (Text now))
    as (-> & -> & -> & -> & -> & -> & -> & -> & ->).
  cbn [cell_int cell_float].
  rewrite !TextFacts.py_int_str_int, Hg. reflexivity.
Qed.

Lemma sgpa_five_facts (m1 m2 m3 m4 m5 : float) :
  let total := marks_to_grade_point m1 + marks_to_grade_point m2
               + marks_to_grade_point m3 + marks_to_grade_point m4
               + marks_to_grade_point m5 in
  0 <= total <= 50 /\
  exists g : float,
    compute_sgpa [m1; m2; m3; m4; m5] = Some g /\
    PyNum.int_truediv total 5 = Some g /\
    PrimFloat.mul g 5 = PyNum.float_of_int total /\
    PrimFloat.leb 0 g = true /\ PrimFloat.leb g 10 = true /\
    PyText.format_fixed 2 g = two_decimals_of_fifth total /\
    PyText.py_float (PyText.format_fixed 2 g) = Some g.
Proof.
  intros total.
  pose proof (grade_sum_range m1 m2 m3 m4 m5) as Hr. fold total in Hr.
  split; [exact Hr | ].
  rewrite compute_sgpa_five. fold total.
  destruct (PyNum.int_truediv total 5) as [g|] eqn:Hg; [ | discriminate Hg].
  exists g. destruct (fifth_spec total g Hr Hg) as (H1 & H2 & H3 & H4 & H5).
  repeat split; auto.
Qed.


(** ** The record dict *)

Lemma key_eqb_eq (a b : key) : key_eqb a b = true <-> a = b.
Proof.
  unfold key_eqb. destruct a as [a1 a2], b as [b1 b2]; simpl.
  rewrite andb_true_iff, !Z.eqb_eq. split; [intros [-> ->]; reflexivity | ].
  intros [= -> ->]. auto.
Qed.

Lemma key_eqb_refl (a : key) : key_eqb a a = true.
Proof. now apply key_eqb_eq. Qed.

Lemma key_eqb_neq (a b : key) : key_eqb a b = false <-> a <> b.
Proof.
  rewrite <- key_eqb_eq. destruct (key_eqb a b); split; congruence.
Qed.

Section DictFacts.
Variable V : Type.
Implicit Types (d : @PyDict.dict key V) (k : key) (v : V).

Lemma get_set_same d k v : PyDict.get key_eqb k (PyDict.set key_eqb k v d) = Some v.
Proof.
  induction d as [|[k' v'] d IH]; simpl.
  - now rewrite key_eqb_refl.
  - destruct (key_eqb k k') eqn:E; simpl; rewrite E; auto.
Qed.

Lemma get_set_other d k k' v :
  k' <> k ->
  PyDict.get key_eqb k' (PyDict.set key_eqb k v d) = PyDict.get key_eqb k' d.
Proof.
  intros Hne. induction d as [|[k0 v0] d IH]; simpl.
  - apply key_eqb_neq in Hne. now rewrite Hne.
  - destruct (key_eqb k k0) eqn:E; simpl.
    + apply key_eqb_eq in E. subst k0.
      apply key_eqb_neq in Hne. now rewrite Hne.
    + now rewrite IH.
Qed.

Lemma keys_set d k v :
  PyDict.keys (PyDict.set key_eqb k v d) =
  if existsb (key_eqb k) (PyDict.keys d) then PyDict.keys d
  else PyDict.keys d ++ [k].
Proof.
  induction d as [|[k0 v0] d IH]; simpl; [reflexivity | ].
  destruct (key_eqb k k0) eqn:E; simpl; [reflexivity | ].
  fold (PyDict.keys d). rewrite IH.
  destruct (existsb (key_eqb k) (PyDict.keys d)); reflexivity.
Qed.

Lemma keys_set_NoDup d k v :
  NoDup (PyDict.keys d) -> NoDup (PyDict.keys (PyDict.set key_eqb k v d)).
Proof.
  intros H. rewrite keys_set.
  destruct (existsb (key_eqb k) (PyDict.keys d)) eqn:E; [exact H | ].
  apply NoDup_app; [exact H | repeat constructor; simpl; tauto | ].
  intros x Hx [<- | []].
  assert (existsb (key_eqb k) (PyDict.keys d) = true)
    by (apply existsb_exists; exists k; split; [exact Hx | apply key_eqb_refl]).
  congruence.
Qed.
End DictFacts.

(** ** Loading *)

Lemma read_rows_parse (fieldnames : row) (body : list row) (acc : records) :
  read_rows fieldnames body acc =
  option_map
    (fun recs => fold_left (fun d r => PyDict.set key_eqb (record_key r) r d) recs acc)
    (parse_rows fieldnames body).
Proof.
  revert acc. induction body as [|r rest IH]; intros acc; simpl; [reflexivity | ].
  destruct (is_blank r); [apply IH | ].
  destruct (parse_record fieldnames r) as [rec|]; [ | reflexivity].
  rewrite IH. destruct (parse_rows fieldnames rest); reflexivity.
Qed.

Lemma get_fold_set (k : key) (recs : list record) (acc : records) :
  records_get k
    (fold_left (fun d r => PyDict.set key_eqb (record_key r) r d) recs acc) =
  match last_with_key k recs with
  | Some r => Some r
  | None => records_get k acc
  end.
Proof.
  unfold records_get. revert acc.
  induction recs as [|r recs IH]; intros acc; simpl; [reflexivity | ].
  rewrite IH. destruct (last_with_key k recs); [reflexivity | ].
  destruct (key_eqb k (record_key r)) eqn:E.
  - apply key_eqb_eq in E. subst k. apply get_set_same.
  - apply key_eqb_neq in E. now apply get_set_other.
Qed.

Lemma keys_fold_set_NoDup (recs : list record) (acc : records) :
  NoDup (PyDict.keys acc) ->
  NoDup (PyDict.keys
           (fold_left (fun d r => PyDict.set key_eqb (record_key r) r d) recs acc)).
Proof.
  revert acc. induction recs as [|r recs IH]; intros acc H; simpl; [exact H | ].
  apply IH, keys_set_NoDup, H.
Qed.

Lemma parse_rows_app (fieldnames : row) (b1 b2 : list row) :
  parse_rows fieldnames (b1 ++ b2) =
  match parse_rows fieldnames b1, parse_rows fieldnames b2 with
  | Some r1, Some r2 => Some (r1 ++ r2)
  | _, _ => None
  end.
Proof.
  induction b1 as [|r b1 IH]; simpl.
  - destruct (parse_rows fieldnames b2); reflexivity.
  - destruct (is_blank r); [exact IH | ].
    rewrite IH.
    destruct (parse_record fieldnames r); [ | reflexivity].
    destruct (parse_rows fieldnames b1); [ | reflexivity].
    destruct (parse_rows fieldnames b2); reflexivity.
Qed.

Lemma last_with_key_app (k : key) (l1 l2 : list record) :
  last_with_key k (l1 ++ l2) =
  match last_with_key k l2 with
  | Some r => Some r
  | None => last_with_key k l1
  end.
Proof.
  induction l1 as [|r l1 IH]; simpl.
  - destruct (last_with_key k l2); reflexivity.
  - rewrite IH. destruct (last_with_key k l2); reflexivity.
Qed.

Lemma read_file_spec (f : file) :
  match parse_file f with
  | Some recs =>
      exists d : records,
        read_file f = Some d /\
        (forall k : key, records_get k d = last_with_key k recs) /\
        NoDup (PyDict.keys d)
  | None => read_file f = None
  end.
Proof.
  destruct f as [|fieldnames body]; simpl.
  - exists []. split; [reflexivity | split; [reflexivity | constructor]].
  - rewrite read_rows_parse.
    destruct (parse_rows fieldnames body) as [recs|]; simpl; [ | reflexivity].
    eexists. split; [reflexivity | split].
    + intros k. rewrite get_fold_set. now destruct (last_with_key k recs).
    + apply keys_fold_set_NoDup. constructor.
Qed.

Lemma parse_rows_bad (fieldnames : row) (body : list row) (r : row) :
  In r body -> is_blank r = false -> parse_record fieldnames r = None ->
  parse_rows fieldnames body = None.
Proof.
  intros Hin Hb Hp. induction body as [|x body IH]; [destruct Hin | ].
  cbn [parse_rows]. destruct Hin as [-> | Hin].
  - now rewrite Hb, Hp.
  - rewrite (IH Hin). destruct (is_blank x); [reflexivity | ].
    now destruct (parse_record fieldnames x).
Qed.

(** ** Rows read by position *)

Lemma parse_record_header (r : row) : parse_record header_row r = row_record r.
Proof.
  unfold parse_record, field_int, field_float.
  destruct r as [|c0 [|c1 [|c2 [|c3 [|c4 [|c5 [|c6 [|c7 rest]]]]]]]];
    cbn [row_get header_row map is_name String.eqb Ascii.eqb Bool.eqb tl hd_error row_record];
    repeat match goal with
           | |- context [match cell_int ?c with _ => _ end] => destruct (cell_int c)
           | |- context [match cell_float ?c with _ => _ end] => destruct (cell_float c)
           end; reflexivity.
Qed.

Lemma parse_rows_header (body : list row) (recs : list record) :
  parse_rows header_row body = Some recs <->
  map row_record (data_rows body) = map Some recs.
Proof.
  revert recs. induction body as [|r body IH]; intros recs.
  - cbn. split; [intros [= <-]; reflexivity | ].
    destruct recs; [reflexivity | intros E; discriminate E].
  - cbn [parse_rows data_rows filter]. fold (data_rows body).
    destruct (is_blank r); cbn [negb]; [apply IH | ].
    rewrite parse_record_header. cbn [map].
    destruct (row_record r) as [rec|].
    + destruct (parse_rows header_row body) as [l|] eqn:E.
      * split.
        -- intros [= <-]. cbn [map]. f_equal. now apply IH.
        -- destruct recs as [|rec' recs]; [intros X; discriminate X | ].
           cbn [map]. intros [= <- X]. apply IH in X. congruence.
      * split; [intros X; discriminate X | ].
        destruct recs as [|rec' recs]; [intros X; discriminate X | ].
        cbn [map]. intros [= <- X]. apply IH in X. discriminate X.
    + split; [intros X; discriminate X | ].
      destruct recs; intros X; discriminate X.
Qed.

Lemma parse_rows_no_key (k : key) (body : list row) (recs : list record) :
  parse_rows header_row body = Some recs ->
  (forall (r : row) (rec : record),
      In r body -> row_record r = Some rec -> record_key rec <> k) ->
  last_with_key k recs = None.
Proof.
  revert recs. induction body as [|r body IH]; intros recs.
  - intros [= <-] _. reflexivity.
  - cbn [parse_rows]. intros P H.
    assert (H' : forall r0 rec, In r0 body -> row_record r0 = Some rec -> record_key rec <> k)
      by (intros r0 rec Hin; apply H; now right).
    destruct (is_blank r); [now apply IH | ].
    rewrite parse_record_header in P.
    destruct (row_record r) as [rec|] eqn:E; [ | discriminate P].
    destruct (parse_rows header_row body) as [l|]; [ | discriminate P].
    injection P as <-. cbn [last_with_key]. rewrite (IH l eq_refl H').
    assert (N : record_key rec <> k) by (apply (H r); [now left | exact E]).
    assert (key_eqb k (record_key rec) = false) as -> by (apply key_eqb_neq; congruence).
    reflexivity.
Qed.

Lemma parse_rows_cons (r : row) (rec : record) (rest : list row) (recs : list record) :
  row_record r = Some rec ->
  parse_rows header_row (r :: rest) = Some recs ->
  exists l : list record, recs = rec :: l /\ parse_rows header_row rest = Some l.
Proof.
  intros E. cbn [parse_rows].
  destruct r as [|c r]; [discriminate E | ]. cbn [is_blank].
  rewrite parse_record_header, E.
  destruct (parse_rows header_row rest) as [l|]; [ | intros X; discriminate X].
  intros [= <-]. eauto.
Qed.

Lemma parse_rows_split (b1 b2 : list row) (recs : list record) :
  parse_rows header_row (b1 ++ b2) = Some recs ->
  exists l1 l2 : list record,
    recs = l1 ++ l2 /\ parse_rows header_row b1 = Some l1 /\
    parse_rows header_row b2 = Some l2.
Proof.
  rewrite parse_rows_app.
  destruct (parse_rows header_row b1) as [l1|]; [ | intros X; discriminate X].
  destruct (parse_rows header_row b2) as [l2|]; [ | intros X; discriminate X].
  intros [= <-]. eauto.
Qed.

Lemma last_row_wins (body b1 b2 b3 : list row) (r1 r2 : row) (rec1 rec2 : record)
  (recs : list record) :
  parse_rows header_row body = Some recs ->
  body = b1 ++ r1 :: b2 ++ r2 :: b3 ->
  row_record r2 = Some rec2 ->
  (forall (r : row) (rec : record),
      In r b3 -> row_record r = Some rec -> record_key rec <> record_key rec2) ->
  last_with_key (record_key rec2) recs = Some rec2.
Proof.
  intros P -> E2 H3.
  destruct (parse_rows_split _ _ _ P) as (l1 & lR & -> & _ & PR).
  change (r1 :: b2 ++ r2 :: b3) with ((r1 :: b2) ++ r2 :: b3) in PR.
  destruct (parse_rows_split _ _ _ PR) as (l2 & lX & -> & _ & PX).
  destruct (parse_rows_cons _ _ _ _ E2 PX) as (l3 & -> & P3).
  rewrite !last_with_key_app. cbn [last_with_key].
  rewrite (parse_rows_no_key _ _ _ P3 H3). now rewrite key_eqb_refl.
Qed.

(** ** Entries of a dict *)

Lemma set_set (d : records) (k : key) (v1 v2 : record) :
  PyDict.set key_eqb k v2 (PyDict.set key_eqb k v1 d) = PyDict.set key_eqb k v2 d.
Proof.
  induction d as [|[k' v'] d IH]; cbn [PyDict.set].
  - now rewrite key_eqb_refl.
  - destruct (key_eqb k k') eqn:E; cbn [PyDict.set]; rewrite E; [reflexivity | now rewrite IH].
Qed.

Lemma get_of_entry (d : records) (k : key) (v : record) :
  NoDup (PyDict.keys d) -> In (k, v) d -> records_get k d = Some v.
Proof.
  unfold records_get. induction d as [|[k' v'] d IH]; [intros _ []| ].
  cbn [PyDict.keys map fst PyDict.get In]. intros N [E | Hin].
  - injection E as -> ->. now rewrite key_eqb_refl.
  - inversion N as [|? ? Hk N']; subst.
    destruct (key_eqb k k') eqn:E.
    + apply key_eqb_eq in E. subst k'. exfalso. apply Hk.
      change k with (fst (k, v)). now apply in_map.
    + now apply IH.
Qed.

Lemma entry_of_get (d : records) (k : key) (v : record) :
  records_get k d = Some v -> In (k, v) d.
Proof.
  unfold records_get. induction d as [|[k' v'] d IH]; [intros X; discriminate X | ].
  cbn [PyDict.get In]. destruct (key_eqb k k') eqn:E.
  - apply key_eqb_eq in E. subst k'. intros [= ->]. now left.
  - intros H. right. now apply IH.
Qed.

(** ** Aggregation *)

(** C5.  [compute_year_cgpa d y] is a value exactly when [d] has both
    the key (y, 1) and the key (y, 2); the value is then the mean of the two
    sgpa ([(s1 + s2) / 2]).  Otherwise the result is [None]: an explicit
    absent value, no number and no exception.  With only semester 1 it is
    absent, and it becomes the mean once semester 2 is added. *)
Theorem compute_year_cgpa_present_iff (d : records) (y : Z) :
  (forall v : float,
      compute_year_cgpa d y = Some v <->
      exists s1 s2 : record,
        records_get (y, 1) d = Some s1 /\ records_get (y, 2) d = Some s2 /\
        v = PrimFloat.div (PrimFloat.add (sgpa s1) (sgpa s2)) 2)
  /\ (compute_year_cgpa d y = None <->
      records_get (y, 1) d = None \/ records_get (y, 2) d = None)
  /\ (forall s1 : record,
        records_get (y, 1) d = Some s1 -> records_get (y, 2) d = None ->
        compute_year_cgpa d y = None /\
        forall s2 : record,
          compute_year_cgpa (PyDict.set key_eqb (y, 2) s2 d) y =
          Some (PrimFloat.div (PrimFloat.add (sgpa s1) (sgpa s2)) 2)).
Proof.
  unfold compute_year_cgpa. split; [ | split].
  - intros v. split.
    + destruct (records_get (y, 1) d) as [s1|]; [ | discriminate].
      destruct (records_get (y, 2) d) as [s2|]; [ | discriminate].
      intros [= <-]. exists s1, s2. auto.
    + intros (s1 & s2 & -> & -> & ->). reflexivity.
  - destruct (records_get (y, 1) d), (records_get (y, 2) d);
      split; try discriminate; auto; intros [H | H]; discriminate H.
  - intros s1 H1 H2. rewrite H1, H2. split; [reflexivity | ].
    intros s2. unfold records_get.
    rewrite get_set_same, get_set_other by congruence.
    unfold records_get in H1. now rewrite H1.
Qed.

(** C6.  [compute_overall_cgpa d] is [None] exactly when the dict is
    empty; otherwise it is the sum of the sgpa of all keys present divided
    by their number, however many of the eight slots are filled.  Over two
    records with sgpa 8.0 and 6.0 it is 7.0. *)
Theorem compute_overall_cgpa_mean (d : records) :
  (compute_overall_cgpa d = None <-> d = [])
  /\ compute_overall_cgpa d =
     match d with
     | [] => None
     | _ :: _ =>
         Some (PrimFloat.div (PyNum.sum_floats (map sgpa (map snd d)))
                             (PyNum.float_of_int (Z.of_nat (List.length (PyDict.keys d)))))
     end
  /\ (forall (k1 k2 : key) (r1 r2 : record),
        sgpa r1 = 8%float -> sgpa r2 = 6%float ->
        compute_overall_cgpa [(k1, r1); (k2, r2)] = Some 7%float).
Proof.
  assert (E : compute_overall_cgpa d =
     match d with
     | [] => None
     | _ :: _ =>
         Some (PrimFloat.div (PyNum.sum_floats (map sgpa (map snd d)))
                             (PyNum.float_of_int (Z.of_nat (List.length (PyDict.keys d)))))
     end).
  { destruct d as [|[k r] d]; [reflexivity | ].
    unfold compute_overall_cgpa, PyDict.values, PyDict.keys, PyNum.float_div_int.
    cbn [map List.length]. rewrite !length_map.
    rewrite Nat2Z.inj_succ.
    destruct (Z.succ (Z.of_nat (List.length d)) =? 0) eqn:Z0; [ | reflexivity].
    apply Z.eqb_eq in Z0. lia. }
  split; [ | split; [exact E | ]].
  - rewrite E. destruct d; split; congruence.
  - intros k1 k2 r1 r2 H1 H2.
    unfold compute_overall_cgpa, PyDict.values. cbn [map List.length snd].
    rewrite H1, H2. vm_compute. reflexivity.
Qed.

(** ** Trend chart *)

Lemma present_points_In (vs : list (option float)) (n i : nat) (v : float) :
  In (i, v) (present_points n vs) <->
  (n <= i)%nat /\ nth_error vs (i - n) = Some (Some v).
Proof.
  revert n. induction vs as [|[w|] vs IH]; intros n; simpl.
  - split; [tauto | ]. intros [_ H]. destruct (i - n)%nat; discriminate.
  - rewrite IH. split.
    + intros [[= <- <-] | [Hle Hn]].
      * rewrite Nat.sub_diag. auto.
      * split; [lia | ]. replace (i - n)%nat with (S (i - S n)) by lia. exact Hn.
    + intros [Hle Hn]. destruct (i - n)%nat as [|j] eqn:E.
      * left. injection Hn as ->. f_equal. lia.
      * right. split; [lia | ]. replace (i - S n)%nat with j by lia. exact Hn.
  - rewrite IH. split.
    + intros [Hle Hn]. split; [lia | ].
      replace (i - n)%nat with (S (i - S n)) by lia. exact Hn.
    + intros [Hle Hn]. destruct (i - n)%nat as [|j] eqn:E; [discriminate | ].
      split; [lia | ]. replace (i - S n)%nat with j by lia. exact Hn.
Qed.

Lemma present_points_sorted (vs : list (option float)) (n : nat) :
  StronglySorted lt (map fst (present_points n vs)) /\
  Forall (le n) (map fst (present_points n vs)).
Proof.
  revert n. induction vs as [|[w|] vs IH]; intros n; simpl.
  - split; constructor.
  - destruct (IH (S n)) as [Hs Hf]. split.
    + constructor; [exact Hs | ].
      eapply Forall_impl; [ | exact Hf]. intros; lia.
    + constructor; [lia | ].
      eapply Forall_impl; [ | exact Hf]. intros; lia.
  - destruct (IH (S n)) as [Hs Hf]. split; [exact Hs | ].
    eapply Forall_impl; [ | exact Hf]. intros; lia.
Qed.

Lemma present_points_nil (vs : list (option float)) (n : nat) :
  present_points n vs = [] <-> Forall (fun v => v = None) vs.
Proof.
  revert n. induction vs as [|[w|] vs IH]; intros n; simpl.
  - split; constructor.
  - split; [discriminate | ]. intros H. inversion H. discriminate.
  - rewrite IH. split; [constructor; auto | ]. intros H. now inversion H.
Qed.

Lemma draw_cases (d : records) :
  let labels := fst (trend_series d) in
  let pts := present_points 0 (snd (trend_series d)) in
  draw d =
  match pts with
  | [] => NoDataPlaceholder
  | _ :: _ =>
      TrendPlot (map fst pts) (map snd pts) [0; 1; 2; 3; 4; 5; 6; 7]%nat labels
        (map (fun p => (fst p, PrimFloat.add (snd p) one_tenth,
                        PyText.format_fixed 1 (snd p))) pts)
  end.
Proof.
  unfold draw. cbn [trend_series fst snd].
  destruct (present_points 0 _) as [|p pts]; reflexivity.
Qed.

(** C8.  The series of [graph_png] has the eight slots (1,1), (1,2),
    (2,1), (2,2), (3,1), (3,2), (4,1), (4,2) in this order, each labelled
    "{year}-{semester}" and carrying the sgpa of the slot's record, or
    [None] where the dict has no record for the slot.  The points drawn are
    the slots that have a record, in slot order.  It depends on the dict
    only through its lookups, not on the order of insertion.  When no slot
    has a record the chart is the "no data" placeholder, not a plot. *)
Theorem trend_series_canonical (d : records) :
  let labels := fst (trend_series d) in
  let values := snd (trend_series d) in
  let pts := present_points 0 values in
  slots = [(1, 1); (1, 2); (2, 1); (2, 2); (3, 1); (3, 2); (4, 1); (4, 2)]
  /\ labels = ["1-1"; "1-2"; "2-1"; "2-2"; "3-1"; "3-2"; "4-1"; "4-2"]%string
  /\ labels = map slot_label slots
  /\ values = map (fun k => option_map sgpa (records_get k d)) slots
  /\ (forall (i : nat) (v : float),
        In (i, v) pts <->
        exists k : key, nth_error slots i = Some k /\
                        option_map sgpa (records_get k d) = Some v)
  /\ StronglySorted lt (map fst pts)
  /\ (draw d = NoDataPlaceholder <->
      forall k : key, In k slots -> records_get k d = None)
  /\ (pts <> [] ->
      draw d = TrendPlot (map fst pts) (map snd pts) [0; 1; 2; 3; 4; 5; 6; 7]%nat labels
                 (map (fun p => (fst p, PrimFloat.add (snd p) one_tenth,
                                 PyText.format_fixed 1 (snd p))) pts))
  /\ (forall d' : records,
        (forall k : key, In k slots -> records_get k d' = records_get k d) ->
        trend_series d' = trend_series d /\ draw d' = draw d).
Proof.
  intros labels values pts.
  assert (Hnil : pts = [] <-> forall k : key, In k slots -> records_get k d = None).
  { unfold pts. rewrite present_points_nil. unfold values. cbn [trend_series snd].
    rewrite Forall_map, Forall_forall. split; intros H k Hk; specialize (H k Hk).
    - destruct (records_get k d); [discriminate H | reflexivity].
    - now rewrite H. }
  assert (Hext : forall d' : records,
        (forall k : key, In k slots -> records_get k d' = records_get k d) ->
        trend_series d' = trend_series d).
  { intros d' H. unfold trend_series. f_equal.
    apply map_ext_in. intros k Hk. now rewrite H. }
  split; [reflexivity | ]. split; [reflexivity | ]. split; [reflexivity | ].
  split; [reflexivity | ]. split; [ | split; [ | split; [ | split]]].
  - intros i v. unfold pts. rewrite present_points_In, Nat.sub_0_r.
    unfold values. cbn [trend_series snd]. rewrite nth_error_map.
    split.
    + intros [_ H]. destruct (nth_error slots i) as [k|]; [ | discriminate].
      exists k. split; [reflexivity | ]. now injection H.
    + intros (k & -> & H). split; [lia | ]. cbn. now rewrite H.
  - apply present_points_sorted.
  - rewrite <- Hnil. pose proof (draw_cases d) as D. cbv zeta in D. fold values pts in D.
    rewrite D. destruct pts; split; congruence.
  - intros Hne. pose proof (draw_cases d) as D. cbv zeta in D. fold values pts labels in D.
    rewrite D. destruct pts; [congruence | reflexivity].
  - intros d' H. split; [exact (Hext d' H) | ].
    unfold draw. now rewrite (Hext d' H).
Qed.

(** ** What the handlers do to the file *)

Lemma extends_refl (st : store) : extends st st.
Proof. destruct st as [f|]; simpl; [exists []; now rewrite app_nil_r | exact I]. Qed.

Lemma extends_ensure (st : store) : extends st (ensure_data_file st).
Proof. destruct st as [f|]; simpl; [exists []; now rewrite app_nil_r | exact I]. Qed.

Lemma extends_load (st : store) : extends st (fst (load_records st)).
Proof. apply extends_ensure. Qed.

Lemma extends_save (y s : Z) (ms : list float) (g : float) (now : string) (st : store) :
  extends st (fst (save_record y s ms g now st)).
Proof.
  unfold save_record.
  destruct ms as [|m0 [|m1 [|m2 [|m3 [|m4 ms]]]]]; cbn [fst];
    try apply extends_ensure.
  destruct st as [f|]; simpl; [eexists; reflexivity | exact I].
Qed.

Lemma extends_submit (f : form) (now : string) (st : store) :
  extends st (fst (submit f now st)).
Proof.
  unfold submit.
  repeat match goal with
         | |- context [match ?x with Some _ => _ | None => _ end] =>
             destruct x; try apply extends_refl
         | |- context [if ?b then _ else _] => destruct b; try apply extends_refl
         end.
  match goal with
  | |- context [save_record ?y ?s ?ms ?g ?n ?st] =>
      pose proof (extends_save y s ms g n st) as H;
      destruct (save_record y s ms g n st) as [st' [[]|]]
  end; exact H.
Qed.

Lemma extends_graph (st : store) : extends st (fst (graph_png st)).
Proof. apply extends_ensure. Qed.

Lemma extends_index (q : option string) (st : store) :
  extends st (fst (index q st)).
Proof. apply extends_ensure. Qed.

(** C9.  Whatever the file held, [reset_graph] leaves the header row
    alone; loading then gives the empty dict and [graph_png] the "no data"
    placeholder, which is not a plot of eight gaps.  No other operation
    removes a row: [ensure_data_file], [load_records], [save_record],
    [index], [submit] and [graph_png] keep every row of the file in
    place. *)
Theorem reset_graph_clears (st : store) :
  let st' := fst (reset_graph st) in
  st' = Some [header_row]
  /\ row_count st' = 0%nat
  /\ load_records st' = (st', Some [])
  /\ graph_png st' = (st', Some NoDataPlaceholder)
  /\ snd (trend_series []) = [None; None; None; None; None; None; None; None]
  /\ (forall xs ys ticks labels notes,
        NoDataPlaceholder <> TrendPlot xs ys ticks labels notes)
  /\ extends st (ensure_data_file st)
  /\ extends st (fst (load_records st))
  /\ (forall y s ms g now, extends st (fst (save_record y s ms g now st)))
  /\ (forall q, extends st (fst (index q st)))
  /\ (forall f now, extends st (fst (submit f now st)))
  /\ extends st (fst (graph_png st)).
Proof.
  cbv zeta. repeat split; try reflexivity; try discriminate.
  - apply extends_ensure.
  - apply extends_load.
  - intros. apply extends_save.
  - intros. apply extends_index.
  - intros. apply extends_submit.
  - apply extends_graph.
Qed.

(** ** Append, then load *)

Lemma store_ok_ensure (st : store) :
  store_ok st ->
  exists (body : list row) (recs : list record),
    ensure_data_file st = Some (header_row :: body) /\
    parse_rows header_row body = Some recs.
Proof.
  destruct st as [f|]; simpl.
  - intros (body & recs & -> & H). eauto.
  - intros _. exists [], []. auto.
Qed.

Lemma save_record_five (y s : Z) (m1 m2 m3 m4 m5 g : float) (now : string) (st : store) :
  forall f : file,
    ensure_data_file st = Some f ->
    save_record y s [m1; m2; m3; m4; m5] g now st =
    (Some (f ++ [record_row y s m1 m2 m3 m4 m5 g now]), Some tt).
Proof. intros f Hf. unfold save_record. rewrite Hf. reflexivity. Qed.

Lemma load_after_append (body : list row) (recs : list record)
  (y s : Z) (m1 m2 m3 m4 m5 g g' : float) (now : string) :
  parse_rows header_row body = Some recs ->
  PyText.py_float (PyText.format_fixed 2 g) = Some g' ->
  let st' := Some ((header_row :: body) ++ [record_row y s m1 m2 m3 m4 m5 g now]) in
  let rec := mkRecord y s [m1; m2; m3; m4; m5] g' (Some (Text now)) in
  parse_rows header_row (body ++ [record_row y s m1 m2 m3 m4 m5 g now]) =
    Some (recs ++ [rec]) /\
  exists d : records,
    load_records st' = (st', Some d) /\
    records_get (y, s) d = Some rec /\
    (forall k : key, k <> (y, s) -> records_get k d = last_with_key k recs).
Proof.
  intros Hrecs Hg st' rec.
  assert (P : parse_rows header_row (body ++ [record_row y s m1 m2 m3 m4 m5 g now]) =
              Some (recs ++ [rec])).
  { rewrite parse_rows_app, Hrecs. cbn [parse_rows is_blank record_row].
    fold (record_row y s m1 m2 m3 m4 m5 g now).
    now rewrite (parse_record_row y s m1 m2 m3 m4 m5 g g' now Hg). }
  split; [exact P | ].
  pose proof (read_file_spec ((header_row :: body) ++ [record_row y s m1 m2 m3 m4 m5 g now])) as R.
  cbn [app parse_file] in R. rewrite P in R.
  destruct R as (d & Hd & Hget & _). exists d.
  split; [unfold load_records, st'; cbn [ensure_data_file app]; now rewrite Hd | ].
  split.
  - rewrite Hget, last_with_key_app. cbn [last_with_key].
    unfold record_key, rec. cbn [year semester]. now rewrite key_eqb_refl.
  - intros k Hk. rewrite Hget, last_with_key_app. cbn [last_with_key].
    unfold record_key, rec. cbn [year semester].
    apply key_eqb_neq in Hk. now rewrite Hk.
Qed.

Lemma load_after_append_set (body : list row) (recs : list record) (d : records)
  (y s : Z) (m1 m2 m3 m4 m5 g g' : float) (now : string) :
  parse_rows header_row body = Some recs ->
  read_rows header_row body [] = Some d ->
  PyText.py_float (PyText.format_fixed 2 g) = Some g' ->
  load_records (Some ((header_row :: body) ++ [record_row y s m1 m2 m3 m4 m5 g now])) =
    (Some ((header_row :: body) ++ [record_row y s m1 m2 m3 m4 m5 g now]),
     Some (PyDict.set key_eqb (y, s)
             (mkRecord y s [m1; m2; m3; m4; m5] g' (Some (Text now))) d)).
Proof.
  intros Hrecs Hd Hg.
  destruct (load_after_append body recs y s m1 m2 m3 m4 m5 g g' now Hrecs Hg) as (P & _).
  rewrite read_rows_parse, Hrecs in Hd. cbn [option_map] in Hd. injection Hd as <-.
  unfold load_records. cbn [ensure_data_file app read_file].
  rewrite read_rows_parse, P. cbn [option_map].
  rewrite fold_left_app. reflexivity.
Qed.

Lemma load_two_appends (body : list row) (recs : list record)
  (y s : Z) (a1 a2 a3 a4 a5 g1 g1' : float) (now1 : string)
  (b1 b2 b3 b4 b5 g2 g2' : float) (now2 : string) :
  parse_rows header_row body = Some recs ->
  PyText.py_float (PyText.format_fixed 2 g1) = Some g1' ->
  PyText.py_float (PyText.format_fixed 2 g2) = Some g2' ->
  let row1 := record_row y s a1 a2 a3 a4 a5 g1 now1 in
  let row2 := record_row y s b1 b2 b3 b4 b5 g2 now2 in
  let rec1 := mkRecord y s [a1; a2; a3; a4; a5] g1' (Some (Text now1)) in
  let rec2 := mkRecord y s [b1; b2; b3; b4; b5] g2' (Some (Text now2)) in
  exists d0 : records,
    read_rows header_row body [] = Some d0 /\
    NoDup (PyDict.keys d0) /\
    load_records (Some ((header_row :: body) ++ [row1])) =
      (Some ((header_row :: body) ++ [row1]), Some (PyDict.set key_eqb (y, s) rec1 d0)) /\
    load_records (Some ((header_row :: body) ++ [row1; row2])) =
      (Some ((header_row :: body) ++ [row1; row2]), Some (PyDict.set key_eqb (y, s) rec2 d0)).
Proof.
  intros Hrecs H1 H2 row1 row2 rec1 rec2.
  assert (D0 : exists d0, read_rows header_row body [] = Some d0 /\ NoDup (PyDict.keys d0)).
  { rewrite read_rows_parse, Hrecs. cbn [option_map]. eexists. split; [reflexivity | ].
    apply keys_fold_set_NoDup. constructor. }
  destruct D0 as (d0 & Hd0 & N0). exists d0.
  split; [exact Hd0 | ]. split; [exact N0 | ].
  pose proof (load_after_append_set body recs d0 y s a1 a2 a3 a4 a5 g1 g1' now1 Hrecs Hd0 H1) as L1.
  split; [exact L1 | ].
  destruct (load_after_append body recs y s a1 a2 a3 a4 a5 g1 g1' now1 Hrecs H1) as (P1 & _).
  assert (Hd1 : read_rows header_row (body ++ [row1]) [] =
                Some (PyDict.set key_eqb (y, s) rec1 d0)).
  { unfold load_records in L1. cbn [ensure_data_file app read_file] in L1.
    now injection L1. }
  pose proof (load_after_append_set (body ++ [row1]) (recs ++ [rec1]) _
                y s b1 b2 b3 b4 b5 g2 g2' now2 P1 Hd1 H2) as L2.
  fold row2 rec2 in L2. rewrite set_set in L2.
  cbn [app] in L2 |- *. rewrite <- app_assoc in L2. exact L2.
Qed.

(** C2.  [load_records] reads the file (created with its header when
    absent) and returns a dict keyed by (year, semester).
    Whatever the header: when every row parses, each key stands once and
    its value is the record of the last row carrying that key; when some
    row does not parse, the load fails as a whole.
    Under the header that [ensure_data_file] writes, the record of a row is
    read off its fields by position ([row_record]: year and semester are
    the first two fields).  The load succeeds when every row has a record
    and fails when one has none; the entries of the dict are the pairs of a
    key and the record of the last row with that year and semester; and of
    two rows with the same year and semester, no row with them following,
    the record of the later one is the only entry of the key.
    Two calls of [save_record] with the same year and semester, on a file
    that is absent or loadable, append two rows that both have a record;
    [load_records] then returns the dict loaded before the two calls with
    the second record assigned at (year, semester): the key has the later
    record only, and every other key keeps its record. *)
Theorem load_records_last_wins (st : store) :
  exists f : file,
    ensure_data_file st = Some f /\
    fst (load_records st) = Some f /\
    match parse_file f with
    | Some recs =>
        exists d : records,
          snd (load_records st) = Some d /\
          (forall k : key, records_get k d = last_with_key k recs) /\
          NoDup (PyDict.keys d) /\
          (forall (l1 l2 l3 : list record) (r1 r2 : record),
              recs = l1 ++ r1 :: l2 ++ r2 :: l3 ->
              record_key r1 = record_key r2 ->
              last_with_key (record_key r2) l3 = None ->
              records_get (record_key r2) d = Some r2)
    | None => snd (load_records st) = None
    end
    /\ (forall body : list row,
          f = header_row :: body ->
          (forall recs : list record,
              map row_record (data_rows body) = map Some recs ->
              exists d : records,
                snd (load_records st) = Some d /\
                (forall k : key, records_get k d = last_with_key k recs) /\
                (forall (k : key) (rec : record),
                    In (k, rec) d <-> last_with_key k recs = Some rec) /\
                (forall (b1 b2 b3 : list row) (r1 r2 : row) (rec1 rec2 : record),
                    body = b1 ++ r1 :: b2 ++ r2 :: b3 ->
                    row_record r1 = Some rec1 ->
                    row_record r2 = Some rec2 ->
                    (year rec1, semester rec1) = (year rec2, semester rec2) ->
                    (forall (r : row) (rec : record),
                        In r b3 -> row_record r = Some rec ->
                        (year rec, semester rec) <> (year rec2, semester rec2)) ->
                    records_get (year rec2, semester rec2) d = Some rec2 /\
                    forall rec : record,
                      In ((year rec2, semester rec2), rec) d -> rec = rec2))
          /\ (forall r : row,
                In r (data_rows body) -> row_record r = None ->
                snd (load_records st) = None))
    /\ (store_ok st ->
        forall (y s : Z) (a1 a2 a3 a4 a5 g1 : float) (now1 : string)
               (b1 b2 b3 b4 b5 g2 : float) (now2 : string),
        exists (d0 d : records) (g1' g2' : float),
          let row1 := record_row y s a1 a2 a3 a4 a5 g1 now1 in
          let row2 := record_row y s b1 b2 b3 b4 b5 g2 now2 in
          let rec1 := mkRecord y s [a1; a2; a3; a4; a5] g1' (Some (Text now1)) in
          let rec2 := mkRecord y s [b1; b2; b3; b4; b5] g2' (Some (Text now2)) in
          let st1 := fst (save_record y s [a1; a2; a3; a4; a5] g1 now1 st) in
          let st2 := fst (save_record y s [b1; b2; b3; b4; b5] g2 now2 st1) in
          snd (load_records st) = Some d0 /\
          st1 = Some (f ++ [row1]) /\
          st2 = Some (f ++ [row1; row2]) /\
          PyText.py_float (PyText.format_fixed 2 g1) = Some g1' /\
          PyText.py_float (PyText.format_fixed 2 g2) = Some g2' /\
          (compute_sgpa [a1; a2; a3; a4; a5] = Some g1 -> g1' = g1) /\
          (compute_sgpa [b1; b2; b3; b4; b5] = Some g2 -> g2' = g2) /\
          row_record row1 = Some rec1 /\
          row_record row2 = Some rec2 /\
          load_records st1 = (st1, Some (PyDict.set key_eqb (y, s) rec1 d0)) /\
          load_records st2 = (st2, Some d) /\
          d = PyDict.set key_eqb (y, s) rec2 d0 /\
          records_get (y, s) d = Some rec2 /\
          (forall rec : record, In ((y, s), rec) d -> rec = rec2) /\
          (forall k : key, k <> (y, s) -> records_get k d = records_get k d0)).
Proof.
  assert (E : exists f, ensure_data_file st = Some f)
    by (destruct st as [f|]; simpl; eauto).
  destruct E as [f Hf]. exists f. split; [exact Hf | ].
  assert (L : load_records st = (Some f, read_file f))
    by (unfold load_records; now rewrite Hf).
  rewrite L. cbn [fst snd]. split; [reflexivity | ].
  pose proof (read_file_spec f) as H.
  split; [ | split].
  - destruct (parse_file f) as [recs|]; [ | exact H].
    destruct H as (d & Hd & Hget & Hnd). exists d.
    repeat split; auto.
    intros l1 l2 l3 r1 r2 -> Hk Hl3. rewrite Hget.
    rewrite last_with_key_app. cbn [last_with_key].
    rewrite last_with_key_app. cbn [last_with_key]. rewrite Hl3.
    now rewrite key_eqb_refl.
  - intros body ->. cbn [parse_file] in H. split.
    + intros recs Hrecs. apply parse_rows_header in Hrecs.
      rewrite Hrecs in H. destruct H as (d & Hd & Hget & Hnd). exists d.
      assert (Hin : forall k rec, In (k, rec) d <-> last_with_key k recs = Some rec).
      { intros k rec. rewrite <- Hget. split.
        - now apply get_of_entry.
        - apply entry_of_get. }
      split; [exact Hd | ]. split; [exact Hget | ]. split; [exact Hin | ].
      intros b1 b2 b3 r1 r2 rec1 rec2 Hb _ E2 _ H3.
      pose proof (last_row_wins _ b1 b2 b3 r1 r2 rec1 rec2 recs Hrecs Hb E2 H3) as W.
      unfold record_key in W. split; [now rewrite Hget | ].
      intros rec Hrec. apply Hin in Hrec. congruence.
    + intros r Hr Er. unfold data_rows in Hr. apply filter_In in Hr.
      destruct Hr as [Hr Hb]. apply negb_true_iff in Hb.
      rewrite (parse_rows_bad header_row body r Hr Hb) in H
        by (now rewrite parse_record_header).
      exact H.
  - intros Hok y s a1 a2 a3 a4 a5 g1 now1 b1 b2 b3 b4 b5 g2 now2.
    destruct (store_ok_ensure st Hok) as (body & recs & Hf' & Hrecs).
    rewrite Hf in Hf'. injection Hf' as ->.
    destruct (TextFacts.py_float_format_fixed g1) as [g1' H1].
    destruct (TextFacts.py_float_format_fixed g2) as [g2' H2].
    destruct (load_two_appends body recs y s a1 a2 a3 a4 a5 g1 g1' now1
                b1 b2 b3 b4 b5 g2 g2' now2 Hrecs H1 H2)
      as (d0 & Hd0 & N0 & L1 & L2).
    exists d0, (PyDict.set key_eqb (y, s)
                  (mkRecord y s [b1; b2; b3; b4; b5] g2' (Some (Text now2))) d0), g1', g2'.
    cbv zeta.
    assert (S1 : fst (save_record y s [a1; a2; a3; a4; a5] g1 now1 st) =
                 Some ((header_row :: body) ++ [record_row y s a1 a2 a3 a4 a5 g1 now1]))
      by (now rewrite (save_record_five y s a1 a2 a3 a4 a5 g1 now1 st _ Hf)).
    rewrite S1.
    assert (S2 : fst (save_record y s [b1; b2; b3; b4; b5] g2 now2
                   (Some ((header_row :: body) ++ [record_row y s a1 a2 a3 a4 a5 g1 now1]))) =
                 Some ((header_row :: body) ++ [record_row y s a1 a2 a3 a4 a5 g1 now1;
                                                record_row y s b1 b2 b3 b4 b5 g2 now2])).
    { unfold save_record. cbn [ensure_data_file append_row fst].
      now rewrite <- app_assoc. }
    rewrite S2.
    assert (B : forall m1 m2 m3 m4 m5 g g',
               PyText.py_float (PyText.format_fixed 2 g) = Some g' ->
               compute_sgpa [m1; m2; m3; m4; m5] = Some g -> g' = g).
    { intros m1 m2 m3 m4 m5 g g' Hg' Hg.
      destruct (sgpa_five_facts m1 m2 m3 m4 m5) as (_ & g0 & Hg0 & _ & _ & _ & _ & _ & Hback).
      rewrite Hg in Hg0. injection Hg0 as <-. congruence. }
    split; [exact Hd0 | ]. split; [reflexivity | ]. split; [reflexivity | ].
    split; [exact H1 | ]. split; [exact H2 | ].
    split; [apply (B _ _ _ _ _ _ _ H1) | ]. split; [apply (B _ _ _ _ _ _ _ H2) | ].
    split; [rewrite <- parse_record_header; now apply parse_record_row | ].
    split; [rewrite <- parse_record_header; now apply parse_record_row | ].
    split; [exact L1 | ]. split; [exact L2 | ]. split; [reflexivity | ].
    assert (G : records_get (y, s)
                  (PyDict.set key_eqb (y, s)
                     (mkRecord y s [b1; b2; b3; b4; b5] g2' (Some (Text now2))) d0) =
                Some (mkRecord y s [b1; b2; b3; b4; b5] g2' (Some (Text now2))))
      by apply get_set_same.
    split; [exact G | ]. split.
    + intros rec Hrec.
      apply get_of_entry in Hrec; [congruence | now apply keys_set_NoDup].
    + intros k Hk. unfold records_get. now apply get_set_other.
Qed.

(** C7.  For a file that is absent or loadable, and a record whose sgpa
    is the SGPA of its five marks: [save_record] appends one row after the
    rows already there, which stay as they were; the row's sgpa field is the
    text with exactly two decimals and its last field is the timestamp as
    given; and [load_records] then finds, at the record's key, the same
    year, semester, marks, sgpa and timestamp. *)
Theorem save_then_load_round_trip
  (st : store) (y s : Z) (m1 m2 m3 m4 m5 g : float) (now : string) :
  store_ok st ->
  compute_sgpa [m1; m2; m3; m4; m5] = Some g ->
  exists (f : file) (d : records),
    let new_row := record_row y s m1 m2 m3 m4 m5 g now in
    ensure_data_file st = Some f /\
    save_record y s [m1; m2; m3; m4; m5] g now st = (Some (f ++ [new_row]), Some tt) /\
    nth_error new_row 7 =
      Some (Text (two_decimals_of_fifth
                    (marks_to_grade_point m1 + marks_to_grade_point m2
                     + marks_to_grade_point m3 + marks_to_grade_point m4
                     + marks_to_grade_point m5))) /\
    nth_error new_row 8 = Some (Text now) /\
    load_records (Some (f ++ [new_row])) = (Some (f ++ [new_row]), Some d) /\
    records_get (y, s) d = Some (mkRecord y s [m1; m2; m3; m4; m5] g (Some (Text now))).
Proof.
  intros Hok Hg.
  destruct (store_ok_ensure st Hok) as (body & recs & Hf & Hrecs).
  destruct (sgpa_five_facts m1 m2 m3 m4 m5)
    as (Hr & g0 & Hg0 & _ & _ & _ & _ & Htxt & Hback).
  rewrite Hg in Hg0. injection Hg0 as <-.
  destruct (load_after_append body recs y s m1 m2 m3 m4 m5 g g now Hrecs Hback)
    as (_ & d & Hload & Hget & _).
  exists (header_row :: body), d. cbv zeta.
  split; [exact Hf | ].
  split; [now apply save_record_five | ].
  split; [cbn [record_row nth_error]; now rewrite Htxt | ].
  split; [reflexivity | ].
  split; [exact Hload | exact Hget].
Qed.

(** ** Submission *)

Section Submit.
Variables (f : form) (now : string) (st : store).

(** A field that does not convert: nothing is written. *)
Lemma submit_invalid_numbers :
  PyText.py_int (form_get f "year") = None \/
  PyText.py_int (form_get f "semester") = None \/
  PyText.py_float (form_get f "m1") = None \/
  PyText.py_float (form_get f "m2") = None \/
  PyText.py_float (form_get f "m3") = None \/
  PyText.py_float (form_get f "m4") = None \/
  PyText.py_float (form_get f "m5") = None ->
  submit f now st = (st, Some InvalidNumbers).
Proof.
  unfold submit. intros H.
  destruct (PyText.py_int (form_get f "year")),
           (PyText.py_int (form_get f "semester")),
           (PyText.py_float (form_get f "m1")),
           (PyText.py_float (form_get f "m2")),
           (PyText.py_float (form_get f "m3")),
           (PyText.py_float (form_get f "m4")),
           (PyText.py_float (form_get f "m5")); try reflexivity.
  repeat (destruct H as [H | H]; [discriminate H | ]). discriminate H.
Qed.

Variables (y s : Z) (m1 m2 m3 m4 m5 : float).
Hypothesis Hy : PyText.py_int (form_get f "year") = Some y.
Hypothesis Hs : PyText.py_int (form_get f "semester") = Some s.
Hypothesis H1 : PyText.py_float (form_get f "m1") = Some m1.
Hypothesis H2 : PyText.py_float (form_get f "m2") = Some m2.
Hypothesis H3 : PyText.py_float (form_get f "m3") = Some m3.
Hypothesis H4 : PyText.py_float (form_get f "m4") = Some m4.
Hypothesis H5 : PyText.py_float (form_get f "m5") = Some m5.

Lemma submit_converted :
  submit f now st =
  if negb (existsb (Z.eqb y) [1; 2; 3; 4]) || negb (existsb (Z.eqb s) [1; 2])
  then (st, Some InvalidYearSemester)
  else
    match first_bad_mark 1 [m1; m2; m3; m4; m5] with
    | Some i => (st, Some (InvalidMark i))
    | None =>
        match compute_sgpa [m1; m2; m3; m4; m5] with
        | Some g =>
            match save_record y s [m1; m2; m3; m4; m5] g now st with
            | (st', Some _) => (st', Some (Saved y s (PyText.format_fixed 2 g)))
            | (st', None) => (st', None)
            end
        | None => (st, None)
        end
    end.
Proof. unfold submit. now rewrite Hy, Hs, H1, H2, H3, H4, H5. Qed.

(** A year outside 1..4 or a semester outside 1..2: nothing is written. *)
Lemma submit_invalid_year_semester :
  ~ (1 <= y <= 4) \/ ~ (1 <= s <= 2) ->
  submit f now st = (st, Some InvalidYearSemester).
Proof.
  intros H. rewrite submit_converted.
  assert (E : negb (existsb (Z.eqb y) [1; 2; 3; 4])
              || negb (existsb (Z.eqb s) [1; 2]) = true).
  { cbn [existsb]. apply orb_true_iff.
    destruct H as [H | H]; [left | right]; apply negb_true_iff;
      rewrite !orb_false_r; repeat (apply orb_false_iff; split);
      apply Z.eqb_neq; lia. }
  now rewrite E.
Qed.

(** A mark below 0 or above 100: nothing is written. *)
Lemma submit_invalid_mark :
  Exists (fun m => PrimFloat.ltb m 0 = true \/ PrimFloat.ltb 100 m = true)
         [m1; m2; m3; m4; m5] ->
  (exists i : nat, submit f now st = (st, Some (InvalidMark i))) \/
  submit f now st = (st, Some InvalidYearSemester).
Proof.
  intros H. rewrite submit_converted.
  destruct (negb (existsb (Z.eqb y) [1; 2; 3; 4])
            || negb (existsb (Z.eqb s) [1; 2])); [now right | left].
  assert (B : forall ms i,
             Exists (fun m => PrimFloat.ltb m 0 = true \/ PrimFloat.ltb 100 m = true) ms ->
             exists j, first_bad_mark i ms = Some j).
  { induction ms as [|m ms IH]; intros i E; [inversion E | ].
    cbn [first_bad_mark]. unfold PyNum.lt, PyNum.gt.
    destruct (PrimFloat.ltb m 0 || PrimFloat.ltb 100 m) eqn:T; [eauto | ].
    apply orb_false_iff in T. destruct T as [T1 T2].
    inversion E as [? ? [E1 | E1] | ? ? E1]; subst; try congruence.
    now apply IH. }
  destruct (B _ 1%nat H) as [j ->]. eauto.
Qed.

(** Year, semester and all five marks pass the tests of the handler: one
    row is appended and the flash carries the SGPA. *)
Lemma submit_saved :
  1 <= y <= 4 -> 1 <= s <= 2 ->
  Forall (fun m => PrimFloat.ltb m 0 = false /\ PrimFloat.ltb 100 m = false)
         [m1; m2; m3; m4; m5] ->
  exists (f0 : file) (g : float),
    ensure_data_file st = Some f0 /\
    compute_sgpa [m1; m2; m3; m4; m5] = Some g /\
    submit f now st =
      (Some (f0 ++ [record_row y s m1 m2 m3 m4 m5 g now]),
       Some (Saved y s (PyText.format_fixed 2 g))).
Proof.
  intros Vy Vs Hm. rewrite submit_converted.
  assert (E : negb (existsb (Z.eqb y) [1; 2; 3; 4])
              || negb (existsb (Z.eqb s) [1; 2]) = false).
  { assert (Ey : y = 1 \/ y = 2 \/ y = 3 \/ y = 4) by lia.
    assert (Es : s = 1 \/ s = 2) by lia.
    destruct Ey as [-> | [-> | [-> | ->]]], Es as [-> | ->]; reflexivity. }
  rewrite E.
  assert (B : forall ms i,
             Forall (fun m => PrimFloat.ltb m 0 = false /\ PrimFloat.ltb 100 m = false) ms ->
             first_bad_mark i ms = None).
  { induction ms as [|m ms IH]; intros i F; [reflexivity | ].
    inversion F as [|? ? [T1 T2] F']; subst.
    cbn [first_bad_mark]. unfold PyNum.lt, PyNum.gt. rewrite T1, T2. now apply IH. }
  rewrite (B _ 1%nat Hm).
  destruct (sgpa_five_facts m1 m2 m3 m4 m5) as (_ & g & Hg & _).
  assert (Ef : exists f0, ensure_data_file st = Some f0)
    by (destruct st; simpl; eauto).
  destruct Ef as [f0 Hf0]. exists f0, g.
  rewrite Hg, (save_record_five y s m1 m2 m3 m4 m5 g now st f0 Hf0). auto.
Qed.
End Submit.

(** A mark that is a number within [[0, 100]] passes the tests; a number
    outside fails one of them. *)
Lemma mark_tests (m : float) :
  PrimFloat.leb m m = true ->
  (PrimFloat.ltb m 0 = false /\ PrimFloat.ltb 100 m = false <->
   PrimFloat.leb 0 m = true /\ PrimFloat.leb m 100 = true).
Proof.
  intros Hm. split; intros [A B]; split.
  - destruct (PrimFloat.leb 0 m) eqn:E; [reflexivity | ].
    pose proof (FloatOrder.leb_false_ltb' 0 m eq_refl Hm E). congruence.
  - destruct (PrimFloat.leb m 100) eqn:E; [reflexivity | ].
    pose proof (FloatOrder.leb_false_ltb' m 100 Hm eq_refl E). congruence.
  - destruct (PrimFloat.ltb m 0) eqn:E; [ | reflexivity].
    pose proof (FloatOrder.ltb_leb_false 0 m E). congruence.
  - destruct (PrimFloat.ltb 100 m) eqn:E; [ | reflexivity].
    pose proof (FloatOrder.ltb_leb_false m 100 E). congruence.
Qed.

(** The four ways a submission ends: three refusals that leave the store as
    it was, or one row appended for converted, validated input. *)
Lemma submit_outcomes (f : form) (now : string) (st : store) :
  submit f now st = (st, Some InvalidNumbers) \/
  submit f now st = (st, Some InvalidYearSemester) \/
  (exists i : nat, submit f now st = (st, Some (InvalidMark i))) \/
  exists (y s : Z) (m1 m2 m3 m4 m5 g : float) (f0 : file),
    PyText.py_int (form_get f "year") = Some y /\
    PyText.py_int (form_get f "semester") = Some s /\
    map (fun n => PyText.py_float (form_get f n)) ["m1"; "m2"; "m3"; "m4"; "m5"]%string
      = map Some [m1; m2; m3; m4; m5] /\
    In y [1; 2; 3; 4] /\ In s [1; 2] /\
    first_bad_mark 1 [m1; m2; m3; m4; m5] = None /\
    ensure_data_file st = Some f0 /\
    compute_sgpa [m1; m2; m3; m4; m5] = Some g /\
    submit f now st =
      (Some (f0 ++ [record_row y s m1 m2 m3 m4 m5 g now]),
       Some (Saved y s (PyText.format_fixed 2 g))).
Proof.
  destruct (PyText.py_int (form_get f "year")) as [y|] eqn:Hy;
    [ | left; rewrite submit_invalid_numbers; auto].
  destruct (PyText.py_int (form_get f "semester")) as [s|] eqn:Hs;
    [ | left; rewrite submit_invalid_numbers; auto].
  destruct (PyText.py_float (form_get f "m1")) as [m1|] eqn:H1;
    [ | left; rewrite submit_invalid_numbers; auto].
  destruct (PyText.py_float (form_get f "m2")) as [m2|] eqn:H2;
    [ | left; rewrite submit_invalid_numbers; auto 6].
  destruct (PyText.py_float (form_get f "m3")) as [m3|] eqn:H3;
    [ | left; rewrite submit_invalid_numbers; auto 7].
  destruct (PyText.py_float (form_get f "m4")) as [m4|] eqn:H4;
    [ | left; rewrite submit_invalid_numbers; auto 8].
  destruct (PyText.py_float (form_get f "m5")) as [m5|] eqn:H5;
    [ | left; rewrite submit_invalid_numbers; auto 9].
  rewrite (submit_converted f now st y s m1 m2 m3 m4 m5 Hy Hs H1 H2 H3 H4 H5).
  destruct (negb (existsb (Z.eqb y) [1; 2; 3; 4])
            || negb (existsb (Z.eqb s) [1; 2])) eqn:V; [now right; left | ].
  destruct (first_bad_mark 1 [m1; m2; m3; m4; m5]) as [i|] eqn:B;
    [right; right; left; eauto | ].
  right; right; right.
  apply orb_false_iff in V. destruct V as [Vy Vs].
  apply negb_false_iff, existsb_exists in Vy, Vs.
  destruct Vy as (y' & Iy & Ey), Vs as (s' & Is & Es).
  apply Z.eqb_eq in Ey, Es. subst y' s'.
  destruct (sgpa_five_facts m1 m2 m3 m4 m5) as (_ & g & Hg & _).
  assert (Ef : exists f0, ensure_data_file st = Some f0)
    by (destruct st; simpl; eauto).
  destruct Ef as [f0 Hf0].
  rewrite Hg, (save_record_five y s m1 m2 m3 m4 m5 g now st f0 Hf0).
  exists y, s, m1, m2, m3, m4, m5, g, f0.
  cbn [map]. rewrite H1, H2, H3, H4, H5. repeat split; auto.
Qed.

(** The store is written by [submit] and [reset_graph] only, and both leave
    it loadable. *)
Lemma store_ok_submit (f : form) (now : string) (st : store) :
  store_ok st -> store_ok (fst (submit f now st)).
Proof.
  intros Hok.
  destruct (submit_outcomes f now st)
    as [-> | [-> | [[i ->] |
        (y & s & m1 & m2 & m3 & m4 & m5 & g & f0 & _ & _ & _ & _ & _ & _ & Hf0 & Hg & ->)]]];
    try exact Hok.
  destruct (store_ok_ensure st Hok) as (body & recs & Hf & Hrecs).
  rewrite Hf in Hf0. injection Hf0 as <-.
  destruct (sgpa_five_facts m1 m2 m3 m4 m5) as (_ & g0 & Hg0 & _ & _ & _ & _ & _ & Hback).
  rewrite Hg in Hg0. injection Hg0 as <-.
  destruct (load_after_append body recs y s m1 m2 m3 m4 m5 g g now Hrecs Hback)
    as (P & _).
  cbn [fst store_ok app]. eauto.
Qed.

(** After an accepted submission the record found at its key carries the
    submitted marks and the SGPA that was computed and flashed. *)
Lemma submit_then_load (f : form) (now : string) (st st' : store)
  (y s : Z) (txt : string) :
  store_ok st ->
  submit f now st = (st', Some (Saved y s txt)) ->
  exists (d : records) (r : record),
    load_records st' = (st', Some d) /\
    records_get (y, s) d = Some r /\
    year r = y /\ semester r = s /\
    map Some (marks r) =
      map (fun n => PyText.py_float (form_get f n)) ["m1"; "m2"; "m3"; "m4"; "m5"]%string /\
    compute_sgpa (marks r) = Some (sgpa r) /\
    txt = PyText.format_fixed 2 (sgpa r) /\
    timestamp r = Some (Text now).
Proof.
  intros Hok Hsub.
  destruct (submit_outcomes f now st)
    as [E | [E | [[i E] |
        (y' & s' & m1 & m2 & m3 & m4 & m5 & g & f0 & _ & _ & Hm & _ & _ & _ & Hf0 & Hg & E)]]];
    rewrite E in Hsub; try discriminate Hsub.
  injection Hsub as <- <- <- <-.
  destruct (store_ok_ensure st Hok) as (body & recs & Hf & Hrecs).
  rewrite Hf in Hf0. injection Hf0 as <-.
  destruct (sgpa_five_facts m1 m2 m3 m4 m5) as (_ & g0 & Hg0 & _ & _ & _ & _ & _ & Hback).
  rewrite Hg in Hg0. injection Hg0 as <-.
  destruct (load_after_append body recs y' s' m1 m2 m3 m4 m5 g g now Hrecs Hback)
    as (_ & d & Hload & Hget & _).
  exists d, (mkRecord y' s' [m1; m2; m3; m4; m5] g (Some (Text now))).
  cbn [year semester marks sgpa timestamp]. repeat split; auto.
Qed.

(** C10.  For five marks, the sum of the grade points is an integer in
    [[0, 50]] and the SGPA is a fifth of it: a multiple of 0.2 within
    [[0, 10]] (five times the SGPA is the integer sum, and its two-decimal
    text is the exact decimal expansion of sum/5).  Hence the two-decimal
    text that [save_record] stores reads back as the very same float: the
    row written for a submission parses to a record whose sgpa is the value
    computed at submission, and after an accepted submission
    [load_records] finds that value at the submitted key. *)
Theorem sgpa_two_decimals_lossless :
  (forall m1 m2 m3 m4 m5 : float,
      let total := marks_to_grade_point m1 + marks_to_grade_point m2
                   + marks_to_grade_point m3 + marks_to_grade_point m4
                   + marks_to_grade_point m5 in
      0 <= total <= 50 /\
      exists g : float,
        compute_sgpa [m1; m2; m3; m4; m5] = Some g /\
        PyNum.int_truediv total 5 = Some g /\
        PrimFloat.mul g 5 = PyNum.float_of_int total /\
        PrimFloat.leb 0 g = true /\ PrimFloat.leb g 10 = true /\
        PyText.format_fixed 2 g = two_decimals_of_fifth total /\
        cell_float (Text (PyText.format_fixed 2 g)) = Some g /\
        forall (y s : Z) (now : string),
          parse_record header_row (record_row y s m1 m2 m3 m4 m5 g now) =
          Some (mkRecord y s [m1; m2; m3; m4; m5] g (Some (Text now))))
  /\ (forall (f : form) (now : string) (st st' : store) (y s : Z) (txt : string),
        store_ok st ->
        submit f now st = (st', Some (Saved y s txt)) ->
        exists (d : records) (r : record),
          load_records st' = (st', Some d) /\
          records_get (y, s) d = Some r /\
          compute_sgpa (marks r) = Some (sgpa r) /\
          txt = PyText.format_fixed 2 (sgpa r)).
Proof.
  split.
  - intros m1 m2 m3 m4 m5 total.
    destruct (sgpa_five_facts m1 m2 m3 m4 m5)
      as (Hr & g & H0 & H1 & H2 & H3 & H4 & H5 & H6).
    split; [exact Hr | ]. exists g. repeat split; auto.
    intros y s now. now apply parse_record_row.
  - intros f now st st' y s txt Hok Hsub.
    destruct (submit_then_load f now st st' y s txt Hok Hsub)
      as (d & r & H1 & H2 & _ & _ & _ & H3 & H4 & _).
    exists d, r. auto.
Qed.

Lemma store_ok_reset (st : store) : store_ok (fst (reset_graph st)).
Proof. simpl. exists [], []. auto. Qed.

Lemma store_ok_load (st : store) : store_ok st -> store_ok (fst (load_records st)).
Proof.
  intros Hok. destruct (store_ok_ensure st Hok) as (body & recs & Hf & Hrecs).
  unfold load_records. cbn [fst]. rewrite Hf. simpl. eauto.
Qed.

(** C1.  [submit] is meant to refuse a mark outside [[0, 100]].  The
    form with m1 = "nan" is accepted: [float("nan")] is NaN, which is
    neither below 0 nor above 100 for the handler's two tests although it is
    not within [[0, 100]]; a row is appended and "Saved" is flashed with the
    SGPA 4.80 of the grade points 0, 6, 6, 6, 6. *)
Theorem submit_accepts_nan_mark :
  let f := marks_form "1" "1" "nan" "50" "50" "50" "50" in
  let now := "2024-01-01T10:00:00"%string in
  let st := Some [header_row] in
  PyText.py_float "nan" = Some nan
  /\ PrimFloat.leb 0 nan = false
  /\ PrimFloat.leb nan 100 = false
  /\ first_bad_mark 1 [nan; 50; 50; 50; 50]%float = None
  /\ submit f now st =
       (Some [header_row; record_row 1 1 nan 50 50 50 50 (24 / 5)%float now],
        Some (Saved 1 1 "4.80"))
  /\ row_count (fst (submit f now st)) = S (row_count st).
Proof. vm_compute. repeat split; reflexivity. Qed.

(** Sample values. *)
Example grade_point_samples :
  option_map marks_to_grade_point (PyText.py_float "90") = Some 10
  /\ option_map marks_to_grade_point (PyText.py_float "89.9") = Some 9
  /\ option_map marks_to_grade_point (PyText.py_float "39.9") = Some 0
  /\ option_map marks_to_grade_point (PyText.py_float "40") = Some 5
  /\ option_map marks_to_grade_point (PyText.py_float "1e308") = Some 10
  /\ option_map marks_to_grade_point (PyText.py_float "-inf") = Some 0
  /\ option_map marks_to_grade_point (PyText.py_float "nan") = Some 0.
Proof. vm_compute. repeat split; reflexivity. Qed.

Example submit_rejections :
  let now := "2024-01-01T10:00:00"%string in
  let st := Some [header_row] in
  submit (marks_form "1" "3" "50" "50" "50" "50" "50") now st = (st, Some InvalidYearSemester)
  /\ submit (marks_form "5" "1" "50" "50" "50" "50" "50") now st = (st, Some InvalidYearSemester)
  /\ submit (marks_form "1" "1" "101" "50" "50" "50" "50") now st = (st, Some (InvalidMark 1))
  /\ submit (marks_form "1" "1" "50" "50" "50" "50" "-1") now st = (st, Some (InvalidMark 5))
  /\ submit (marks_form "1" "1" "50" "inf" "50" "50" "50") now st = (st, Some (InvalidMark 2))
  /\ submit (marks_form "1" "1" "50" "abc" "50" "50" "50") now st = (st, Some InvalidNumbers)
  /\ submit (form_of [("year", "1"); ("semester", "1")]%string) now st = (st, Some InvalidNumbers).
Proof. vm_compute. repeat split; reflexivity. Qed.

Lemma save_then_load_round_trip_witness :
  let older := record_row 2 1 10 20 30 40 50 1 "2024-01-01T10:00:00" in
  let st := Some [header_row; older] in
  let now := "2024-06-01T12:30:00"%string in
  store_ok st /\
  compute_sgpa [95; 85; 75; 65; 55]%float = Some 8%float /\
  exists (f : file) (d : records),
    let new_row := record_row 2 1 95 85 75 65 55 8 now in
    ensure_data_file st = Some f /\
    save_record 2 1 [95; 85; 75; 65; 55]%float 8 now st = (Some (f ++ [new_row]), Some tt) /\
    nth_error new_row 7 =
      Some (Text (two_decimals_of_fifth
                    (marks_to_grade_point 95 + marks_to_grade_point 85
                     + marks_to_grade_point 75 + marks_to_grade_point 65
                     + marks_to_grade_point 55))) /\
    nth_error new_row 8 = Some (Text now) /\
    load_records (Some (f ++ [new_row])) = (Some (f ++ [new_row]), Some d) /\
    records_get (2, 1) d =
      Some (mkRecord 2 1 [95; 85; 75; 65; 55]%float 8 (Some (Text now))).
Proof.
  intros older st now.
  assert (Hok : store_ok st).
  { exists [older]. eexists. split; [reflexivity | vm_compute; reflexivity]. }
  split; [exact Hok | ]. split; [reflexivity | ].
  exact (save_then_load_round_trip st 2 1 95 85 75 65 55 8 now Hok eq_refl).
Defined.

Lemma load_records_last_wins_witness :
  let st := Some [header_row; record_row 2 1 40 40 40 40 40 5 "2024-01-01T10:00:00"] in
  let st2 := Some [header_row; record_row 2 1 40 40 40 40 40 5 "2024-01-01T10:00:00";
                   record_row 1 1 55 55 55 55 55 6 "2024-02-01T10:00:00";
                   record_row 1 1 95 85 75 65 55 8 "2024-03-01T10:00:00"] in
  store_ok st /\
  fst (save_record 1 1 [95; 85; 75; 65; 55]%float 8 "2024-03-01T10:00:00"
         (fst (save_record 1 1 [55; 55; 55; 55; 55]%float 6 "2024-02-01T10:00:00" st))) = st2 /\
  exists d : records,
    load_records st2 = (st2, Some d) /\
    forall rec : record,
      In ((1, 1), rec) d ->
      rec = mkRecord 1 1 [95; 85; 75; 65; 55]%float 8 (Some (Text "2024-03-01T10:00:00")).
Proof.
  intros st st2.
  assert (Hok : store_ok st).
  { eexists. eexists. split; [reflexivity | vm_compute; reflexivity]. }
  split; [exact Hok | ]. split; [reflexivity | ].
  destruct (load_records_last_wins st) as (f & Hf & _ & _ & _ & HC).
  destruct (HC Hok 1 1 55%float 55%float 55%float 55%float 55%float 6%float
                "2024-02-01T10:00:00"%string
                95%float 85%float 75%float 65%float 55%float 8%float
                "2024-03-01T10:00:00"%string)
    as (d0 & d & g1' & g2' & _ & _ & _ & _ & H2 & _ & B2 & _ & _ & _ & L2 & _ & _ & Hin & _).
  exists d. split; [exact L2 | ].
  intros rec Hrec. rewrite (Hin rec Hrec). f_equal. apply B2.
  vm_compute. reflexivity.
Defined.

(** * Further properties of the handlers *)

(** ** The data file and the requests that read it *)

Lemma load_ok (st : store) :
  store_ok st -> exists d : records, load_records st = (ensure_data_file st, Some d).
Proof.
  intros Hok. destruct (store_ok_ensure st Hok) as (body & recs & Hf & Hrecs).
  unfold load_records. rewrite Hf.
  pose proof (read_file_spec (header_row :: body)) as R.
  cbn [parse_file] in R. rewrite Hrecs in R. destruct R as (d & Hd & _).
  exists d. now rewrite Hd.
Qed.

Lemma index_load (q : option string) (st : store) :
  fst (index q st) = ensure_data_file st /\
  returned (snd (index q st)) = returned (snd (load_records st)).
Proof.
  unfold index. destruct (load_records st) as [st' [d|]] eqn:E;
    cbn [fst snd option_map returned];
    (split; [ | reflexivity]);
    now apply (f_equal fst) in E.
Qed.

Lemma graph_load (st : store) :
  fst (graph_png st) = ensure_data_file st /\
  returned (snd (graph_png st)) = returned (snd (load_records st)).
Proof.
  unfold graph_png. destruct (load_records st) as [st' [d|]] eqn:E;
    cbn [fst snd option_map returned];
    (split; [ | reflexivity]);
    now apply (f_equal fst) in E.
Qed.

Lemma ensure_idem (st : store) :
  ensure_data_file (ensure_data_file st) = ensure_data_file st.
Proof. now destruct st. Qed.

Lemma load_ensure (st : store) :
  load_records (ensure_data_file st) = load_records st.
Proof. unfold load_records. now rewrite ensure_idem. Qed.

Lemma serve_read (r : request) (st : store) :
  reads r = true -> serve r st = ensure_data_file st.
Proof.
  destruct r; try discriminate; intros _; cbn [serve].
  - apply index_load.
  - apply graph_load.
Qed.

Lemma serve_all_reads (rs : list request) (st : store) :
  forallb reads rs = true ->
  serve_all rs (ensure_data_file st) = ensure_data_file st.
Proof.
  induction rs as [|r rs IH]; intros Hr; [reflexivity | ].
  cbn [forallb] in Hr. apply andb_prop in Hr. destruct Hr as [H1 H2].
  unfold serve_all. cbn [fold_left].
  rewrite (serve_read r _ H1), ensure_idem. exact (IH H2).
Qed.

(** X1.  Requests that only read ([index], [graph_png]) never touch an
    existing data file, whatever it holds: after any non-empty sequence of
    them the store is what one [ensure_data_file] makes of it (the file as
    it was, or the header-only file when there was none), and [index] and
    [graph_png] then answer exactly as they would have answered at the
    start. *)
Theorem reads_only_ensure (rs : list request) (st : store) :
  forallb reads rs = true ->
  serve_all rs st = match rs with [] => st | _ :: _ => ensure_data_file st end
  /\ (forall f : file, st = Some f -> serve_all rs st = Some f)
  /\ (st = None -> rs <> [] -> serve_all rs st = Some [header_row])
  /\ (forall q : option string, snd (index q (serve_all rs st)) = snd (index q st))
  /\ snd (graph_png (serve_all rs st)) = snd (graph_png st).
Proof.
  intros Hr.
  assert (S : serve_all rs st = match rs with [] => st | _ :: _ => ensure_data_file st end).
  { destruct rs as [|r rs]; [reflexivity | ].
    cbn [forallb] in Hr. apply andb_prop in Hr. destruct Hr as [H1 H2].
    unfold serve_all. cbn [fold_left]. rewrite (serve_read r _ H1).
    exact (serve_all_reads rs st H2). }
  assert (L : load_records (serve_all rs st) = load_records st).
  { rewrite S. destruct rs; [reflexivity | apply load_ensure]. }
  split; [exact S | ]. split; [ | split; [ | split]].
  - intros f ->. rewrite S. now destruct rs.
  - intros -> Hne. rewrite S. destruct rs; [congruence | reflexivity].
  - intros q. unfold index. now rewrite L.
  - unfold graph_png. now rewrite L.
Qed.

Lemma reads_only_ensure_witness :
  let rs := [GetIndex None; GetGraph; GetIndex (Some "2"%string)] in
  forallb reads rs = true /\
  serve_all rs None = Some [header_row].
Proof.
  intros rs. split; [reflexivity | ].
  exact (proj1 (reads_only_ensure rs None eq_refl)).
Defined.

(** ** The store stays loadable *)

Lemma store_ok_serve (r : request) (st : store) :
  store_ok st -> store_ok (serve r st).
Proof.
  intros Hok. destruct r as [q|f now| | ]; cbn [serve].
  - rewrite (proj1 (index_load q st)). now apply (store_ok_load st).
  - now apply store_ok_submit.
  - rewrite (proj1 (graph_load st)). now apply (store_ok_load st).
  - apply store_ok_reset.
Qed.

Lemma submit_returns (f : form) (now : string) (st : store) :
  returned (snd (submit f now st)) = true.
Proof.
  destruct (submit_outcomes f now st)
    as [-> | [-> | [[i ->] |
        (y & s & m1 & m2 & m3 & m4 & m5 & g & f0 & _ & _ & _ & _ & _ & _ & _ & _ & ->)]]];
    reflexivity.
Qed.

Lemma responds_ok (r : request) (st : store) :
  store_ok st -> responds r st = true.
Proof.
  intros Hok. destruct (load_ok st Hok) as [d Hd].
  destruct r as [q|f now| | ]; cbn [responds].
  - rewrite (proj2 (index_load q st)), Hd. reflexivity.
  - apply submit_returns.
  - rewrite (proj2 (graph_load st)), Hd. reflexivity.
  - reflexivity.
Qed.

(** X2.  Starting from a data file that is absent or loadable, whatever
    requests are served in whatever order, the file stays loadable (it
    starts with the header and every row parses), so no later request lets
    an exception escape: [index], [graph_png], [submit] and [reset_graph]
    all return. *)
Theorem requests_keep_store_loadable (rs : list request) (st : store) :
  store_ok st ->
  store_ok (serve_all rs st)
  /\ (exists d : records, snd (load_records (serve_all rs st)) = Some d)
  /\ (forall r : request, responds r (serve_all rs st) = true).
Proof.
  intros Hok.
  assert (H : store_ok (serve_all rs st)).
  { revert st Hok. induction rs as [|r rs IH]; intros st Hok; [exact Hok | ].
    unfold serve_all. cbn [fold_left]. apply IH. now apply store_ok_serve. }
  split; [exact H | ]. split.
  - destruct (load_ok _ H) as [d Hd]. exists d. now rewrite Hd.
  - intros r. now apply responds_ok.
Qed.

Lemma requests_keep_store_loadable_witness :
  let rs := [PostSubmit (marks_form "1" "1" "95" "85" "75" "65" "55") "2024-01-01T10:00:00";
             GetIndex (Some "x"%string);
             PostSubmit (marks_form "1" "1" "nan" "1e3" "" "65" "55") "2024-01-02T10:00:00";
             GetGraph; PostReset;
             PostSubmit (marks_form "4" "2" "nan" "0" "100" "65" "55") "2024-01-03T10:00:00"] in
  store_ok None /\
  forall r : request, responds r (serve_all rs None) = true.
Proof.
  intros rs. split; [exact I | ].
  exact (proj2 (proj2 (requests_keep_store_loadable rs None I))).
Defined.

(** ** Which submissions are saved *)

Lemma SFltb_not_nan (a b : spec_float) :
  SFltb a b = true -> a <> S754_nan /\ b <> S754_nan.
Proof.
  unfold SFltb.
  destruct a as [sa|sa| |sa ma ea], b as [sb|sb| |sb mb eb]; simpl;
    intros H; split; congruence.
Qed.

Lemma ltb_comparable (x y : float) :
  PrimFloat.ltb x y = true -> PrimFloat.leb x x = true /\ PrimFloat.leb y y = true.
Proof.
  rewrite ltb_spec, !leb_spec. intros H.
  destruct (SFltb_not_nan _ _ H). split; now apply FloatOrder.SFleb_refl.
Qed.

Lemma leb_comparable (x y : float) :
  PrimFloat.leb x y = true -> PrimFloat.leb x x = true /\ PrimFloat.leb y y = true.
Proof.
  rewrite !leb_spec. intros H.
  destruct (FloatOrder.SFleb_not_nan _ _ H). split; now apply FloatOrder.SFleb_refl.
Qed.

(** A mark passes the test of [submit] exactly when it is NaN or lies
    within [[0, 100]], bounds included. *)
Lemma mark_refused_false_iff (m : float) :
  mark_refused m = false <->
  PrimFloat.leb m m = false \/
  (PrimFloat.leb 0 m = true /\ PrimFloat.leb m 100 = true).
Proof.
  unfold mark_refused, PyNum.lt, PyNum.gt. rewrite orb_false_iff.
  destruct (PrimFloat.leb m m) eqn:Hm.
  - rewrite (mark_tests m Hm). split; [auto | ]. intros [H | H]; [discriminate | exact H].
  - split; [auto | ]. intros _. split.
    + destruct (PrimFloat.ltb m 0) eqn:E; [ | reflexivity].
      destruct (ltb_comparable _ _ E). congruence.
    + destruct (PrimFloat.ltb 100 m) eqn:E; [ | reflexivity].
      destruct (ltb_comparable _ _ E). congruence.
Qed.

Lemma first_bad_mark_none (ms : list float) (i : nat) :
  first_bad_mark i ms = None <-> Forall (fun m => mark_refused m = false) ms.
Proof.
  revert i. induction ms as [|m ms IH]; intros i; cbn [first_bad_mark].
  - split; constructor.
  - fold (mark_refused m). destruct (mark_refused m) eqn:E.
    + split; [discriminate | ]. intros H. inversion H. congruence.
    + rewrite IH. split; [now constructor | ]. intros H. now inversion H.
Qed.

Lemma form_marks_five (f : form) (ms : list float) :
  form_marks f = map Some ms ->
  exists m1 m2 m3 m4 m5 : float,
    ms = [m1; m2; m3; m4; m5] /\
    PyText.py_float (form_get f "m1") = Some m1 /\
    PyText.py_float (form_get f "m2") = Some m2 /\
    PyText.py_float (form_get f "m3") = Some m3 /\
    PyText.py_float (form_get f "m4") = Some m4 /\
    PyText.py_float (form_get f "m5") = Some m5.
Proof.
  unfold form_marks. cbn [map]. intros H.
  destruct ms as [|m1 [|m2 [|m3 [|m4 [|m5 [|m6 ms]]]]]]; try discriminate H.
  cbn [map] in H. injection H as H1 H2 H3 H4 H5.
  exists m1, m2, m3, m4, m5. auto 10.
Qed.

(** X3.  [submit] always returns.  It saves (flashes "Saved") exactly when
    year and semester convert to ints within 1..4 and 1..2, all five marks
    convert to floats, and every mark is NaN or lies within [[0, 100]]
    (bounds included).  A saved submission appends one row of nine fields
    after the rows already in the file (creating the file with its header
    first when it is absent); any other submission leaves the store exactly
    as it was. *)
Theorem submit_saved_iff (f : form) (now : string) (st : store) :
  returned (snd (submit f now st)) = true
  /\ ((exists (y s : Z) (txt : string), snd (submit f now st) = Some (Saved y s txt)) <->
      (exists (y s : Z) (ms : list float),
          PyText.py_int (form_get f "year") = Some y /\
          PyText.py_int (form_get f "semester") = Some s /\
          form_marks f = map Some ms /\
          1 <= y <= 4 /\ 1 <= s <= 2 /\
          Forall (fun m => PrimFloat.leb m m = false \/
                           (PrimFloat.leb 0 m = true /\ PrimFloat.leb m 100 = true)) ms))
  /\ (forall (y s : Z) (txt : string),
        snd (submit f now st) = Some (Saved y s txt) ->
        exists (f0 : file) (r : row),
          ensure_data_file st = Some f0 /\
          fst (submit f now st) = Some (f0 ++ [r]) /\ List.length r = 9%nat)
  /\ ((forall (y s : Z) (txt : string), snd (submit f now st) <> Some (Saved y s txt)) ->
      fst (submit f now st) = st).
Proof.
  split; [apply submit_returns | ].
  pose proof (submit_outcomes f now st) as O.
  split; [ | split].
  - split.
    + intros (y & s & txt & Hs).
      destruct O as [E | [E | [[i E] |
        (y' & s' & m1 & m2 & m3 & m4 & m5 & g & f0 & Hy & Hs' & Hm & Iy & Is & Hb & _ & _ & E)]]];
        rewrite E in Hs; try discriminate Hs.
      exists y', s', [m1; m2; m3; m4; m5]. repeat split; auto.
      * cbn [In] in Iy. lia.
      * cbn [In] in Iy. lia.
      * cbn [In] in Is. lia.
      * cbn [In] in Is. lia.
      * apply first_bad_mark_none in Hb.
        eapply Forall_impl; [ | exact Hb]. intros m. apply mark_refused_false_iff.
    + intros (y & s & ms & Hy & Hs & Hm & Vy & Vs & Hf).
      destruct (form_marks_five f ms Hm) as (m1 & m2 & m3 & m4 & m5 & -> & H1 & H2 & H3 & H4 & H5).
      assert (Hf' : Forall (fun m => PrimFloat.ltb m 0 = false /\ PrimFloat.ltb 100 m = false)
                           [m1; m2; m3; m4; m5]).
      { eapply Forall_impl; [ | exact Hf]. intros m Hm'.
        apply mark_refused_false_iff in Hm'.
        unfold mark_refused, PyNum.lt, PyNum.gt in Hm'. now apply orb_false_iff in Hm'. }
      destruct (submit_saved f now st y s m1 m2 m3 m4 m5 Hy Hs H1 H2 H3 H4 H5 Vy Vs Hf')
        as (f0 & g & _ & _ & E).
      exists y, s, (PyText.format_fixed 2 g). now rewrite E.
  - intros y s txt Hs.
    destruct O as [E | [E | [[i E] |
        (y' & s' & m1 & m2 & m3 & m4 & m5 & g & f0 & _ & _ & _ & _ & _ & _ & Hf0 & _ & E)]]];
      rewrite E in Hs; try discriminate Hs.
    exists f0, (record_row y' s' m1 m2 m3 m4 m5 g now). rewrite E. auto.
  - intros Hn.
    destruct O as [E | [E | [[i E] |
        (y' & s' & m1 & m2 & m3 & m4 & m5 & g & f0 & _ & _ & _ & _ & _ & _ & _ & _ & E)]]];
      rewrite E; try reflexivity.
    exfalso. apply (Hn y' s' (PyText.format_fixed 2 g)). now rewrite E.
Qed.

Lemma first_bad_mark_some (ms : list float) (start i : nat) :
  first_bad_mark start ms = Some i ->
  exists (pre : list float) (m : float) (post : list float),
    ms = pre ++ m :: post /\ i = (start + List.length pre)%nat /\
    Forall (fun x => mark_refused x = false) pre /\ mark_refused m = true.
Proof.
  revert start. induction ms as [|x ms IH]; intros start; cbn [first_bad_mark];
    [discriminate | ].
  fold (mark_refused x). destruct (mark_refused x) eqn:E.
  - intros [= <-]. exists [], x, ms. cbn. repeat split; auto; lia.
  - intros H. destruct (IH _ H) as (pre & m & post & -> & -> & Hp & Hm).
    exists (x :: pre), m, post. cbn [List.length app]. repeat split; auto; lia.
Qed.

Lemma submit_invalid_mark_inv (f : form) (now : string) (st st' : store) (i : nat) :
  submit f now st = (st', Some (InvalidMark i)) ->
  st' = st /\
  exists (y s : Z) (m1 m2 m3 m4 m5 : float),
    PyText.py_int (form_get f "year") = Some y /\
    PyText.py_int (form_get f "semester") = Some s /\
    form_marks f = map Some [m1; m2; m3; m4; m5] /\
    In y [1; 2; 3; 4] /\ In s [1; 2] /\
    first_bad_mark 1 [m1; m2; m3; m4; m5] = Some i.
Proof.
  intros Hsub.
  destruct (PyText.py_int (form_get f "year")) as [y|] eqn:Hy;
    [ | rewrite submit_invalid_numbers in Hsub; [discriminate Hsub | auto]].
  destruct (PyText.py_int (form_get f "semester")) as [s|] eqn:Hs;
    [ | rewrite submit_invalid_numbers in Hsub; [discriminate Hsub | auto]].
  destruct (PyText.py_float (form_get f "m1")) as [m1|] eqn:H1;
    [ | rewrite submit_invalid_numbers in Hsub; [discriminate Hsub | auto]].
  destruct (PyText.py_float (form_get f "m2")) as [m2|] eqn:H2;
    [ | rewrite submit_invalid_numbers in Hsub; [discriminate Hsub | auto 6]].
  destruct (PyText.py_float (form_get f "m3")) as [m3|] eqn:H3;
    [ | rewrite submit_invalid_numbers in Hsub; [discriminate Hsub | auto 7]].
  destruct (PyText.py_float (form_get f "m4")) as [m4|] eqn:H4;
    [ | rewrite submit_invalid_numbers in Hsub; [discriminate Hsub | auto 8]].
  destruct (PyText.py_float (form_get f "m5")) as [m5|] eqn:H5;
    [ | rewrite submit_invalid_numbers in Hsub; [discriminate Hsub | auto 9]].
  rewrite (submit_converted f now st y s m1 m2 m3 m4 m5 Hy Hs H1 H2 H3 H4 H5) in Hsub.
  destruct (negb (existsb (Z.eqb y) [1; 2; 3; 4])
            || negb (existsb (Z.eqb s) [1; 2])) eqn:V; [discriminate Hsub | ].
  apply orb_false_iff in V. destruct V as [Vy Vs].
  apply negb_false_iff, existsb_exists in Vy, Vs.
  destruct Vy as (y' & Iy & Ey), Vs as (s' & Is & Es).
  apply Z.eqb_eq in Ey, Es. subst y' s'.
  destruct (first_bad_mark 1 [m1; m2; m3; m4; m5]) as [j|] eqn:B.
  - injection Hsub as <- <-. split; [reflexivity | ].
    exists y, s, m1, m2, m3, m4, m5. unfold form_marks. cbn [map].
    rewrite H1, H2, H3, H4, H5. auto 10.
  - exfalso.
    destruct (sgpa_five_facts m1 m2 m3 m4 m5) as (_ & g & Hg & _).
    assert (Ef : exists f0, ensure_data_file st = Some f0)
      by (destruct st; simpl; eauto).
    destruct Ef as [f0 Hf0].
    rewrite Hg, (save_record_five y s m1 m2 m3 m4 m5 g now st f0 Hf0) in Hsub.
    discriminate Hsub.
Qed.

(** X4.  When [submit] flashes "Subject {i} marks must be between 0 and
    100", nothing is written, year and semester were valid, all five marks
    converted, and [i] is the number (1 to 5) of the first mark that is
    below 0 or above 100: every mark before it passed the test. *)
Theorem invalid_mark_names_first
  (f : form) (now : string) (st st' : store) (i : nat) :
  submit f now st = (st', Some (InvalidMark i)) ->
  st' = st /\
  (1 <= i <= 5)%nat /\
  exists (ms pre : list float) (m : float) (post : list float),
    form_marks f = map Some ms /\
    ms = pre ++ m :: post /\
    i = S (List.length pre) /\
    Forall (fun x => PrimFloat.ltb x 0 = false /\ PrimFloat.ltb 100 x = false) pre /\
    (PrimFloat.ltb m 0 = true \/ PrimFloat.ltb 100 m = true).
Proof.
  intros Hsub.
  destruct (submit_invalid_mark_inv f now st st' i Hsub)
    as (-> & y & s & m1 & m2 & m3 & m4 & m5 & _ & _ & Hm & _ & _ & Hb).
  split; [reflexivity | ].
  destruct (first_bad_mark_some _ _ _ Hb) as (pre & m & post & E & -> & Hp & Hr).
  assert (L : (List.length pre < 5)%nat).
  { apply (f_equal (@List.length float)) in E. rewrite length_app in E.
    cbn [List.length] in E. lia. }
  split; [lia | ].
  exists [m1; m2; m3; m4; m5], pre, m, post. repeat split; auto.
  - eapply Forall_impl; [ | exact Hp]. intros x Hx.
    unfold mark_refused, PyNum.lt, PyNum.gt in Hx. now apply orb_false_iff in Hx.
  - unfold mark_refused, PyNum.lt, PyNum.gt in Hr. now apply orb_true_iff in Hr.
Qed.

Lemma invalid_mark_names_first_witness :
  let st := Some [header_row] in
  submit (marks_form "2" "1" "40" "nan" "100.5" "-3" "7") "t" st = (st, Some (InvalidMark 3)) /\
  (1 <= 3 <= 5)%nat.
Proof.
  intros st.
  assert (H : submit (marks_form "2" "1" "40" "nan" "100.5" "-3" "7") "t" st
              = (st, Some (InvalidMark 3))) by (vm_compute; reflexivity).
  split; [exact H | ].
  exact (proj1 (proj2 (invalid_mark_names_first _ _ _ _ _ H))).
Defined.

(** ** A saved submission, seen through the other handlers *)

Lemma slot_index (y s : Z) :
  In y [1; 2; 3; 4] -> In s [1; 2] ->
  nth_error slots (Z.to_nat (2 * (y - 1) + (s - 1))) = Some (y, s).
Proof.
  cbn [In]. intros Hy Hs.
  repeat (destruct Hy as [<- | Hy]; [repeat (destruct Hs as [<- | Hs]; [reflexivity | ]); contradiction | ]).
  contradiction.
Qed.

Lemma map_Some_inj {A : Type} (l l' : list A) : map Some l = map Some l' -> l = l'.
Proof.
  revert l'. induction l as [|a l IH]; intros [|a' l']; cbn [map]; try discriminate; auto.
  intros [= -> H]. f_equal. now apply IH.
Qed.

(** Everything a "Saved" flash tells about the request and the store. *)
Lemma submit_saved_inv (f : form) (now : string) (st st' : store)
  (y s : Z) (txt : string) :
  submit f now st = (st', Some (Saved y s txt)) ->
  exists (m1 m2 m3 m4 m5 g : float) (f0 : file),
    form_marks f = map Some [m1; m2; m3; m4; m5] /\
    In y [1; 2; 3; 4] /\ In s [1; 2] /\
    ensure_data_file st = Some f0 /\
    compute_sgpa [m1; m2; m3; m4; m5] = Some g /\
    txt = PyText.format_fixed 2 g /\
    st' = Some (f0 ++ [record_row y s m1 m2 m3 m4 m5 g now]).
Proof.
  intros Hsub.
  destruct (submit_outcomes f now st)
    as [E | [E | [[i E] |
        (y' & s' & m1 & m2 & m3 & m4 & m5 & g & f0 & _ & _ & Hm & Iy & Is & _ & Hf0 & Hg & E)]]];
    rewrite E in Hsub; try discriminate Hsub.
  injection Hsub as <- <- <- <-.
  exists m1, m2, m3, m4, m5, g, f0. repeat split; auto.
Qed.

(** X5.  What is submitted is what the index page shows: after a saved
    submission to a loadable store, [index] returns a table of eight rows
    whose row for the submitted (year, semester), at position
    2 (year - 1) + (semester - 1), carries the five submitted marks, the
    SGPA text that was flashed and the submission's timestamp. *)
Theorem submit_then_index
  (f : form) (now : string) (st st' : store) (y s : Z) (txt : string)
  (q : option string) :
  store_ok st ->
  submit f now st = (st', Some (Saved y s txt)) ->
  exists (page : index_page) (ms : list float),
    index q st' = (st', Some page) /\
    form_marks f = map Some ms /\
    List.length (table_rows page) = 8%nat /\
    nth_error (table_rows page) (Z.to_nat (2 * (y - 1) + (s - 1))) =
      Some (mkTableRow y s (Some ms) (Some txt) (Some (Text now))).
Proof.
  intros Hok Hsub.
  destruct (submit_saved_inv f now st st' y s txt Hsub)
    as (m1 & m2 & m3 & m4 & m5 & g & f0 & Hm & Iy & Is & _).
  destruct (submit_then_load f now st st' y s txt Hok Hsub)
    as (d & r & Hload & Hget & Hy & Hs & Hmr & _ & Htxt & Hts).
  unfold index. rewrite Hload. cbn [option_map].
  eexists. exists (marks r). split; [reflexivity | ].
  split; [now rewrite Hmr | ]. cbn [table_rows]. split; [reflexivity | ].
  rewrite nth_error_map, (slot_index y s Iy Is). cbn [option_map fst snd].
  rewrite Hget. cbn [option_map]. now rewrite Hts, Htxt.
Qed.

Lemma submit_then_index_witness :
  let f := marks_form "3" "2" "95" "85" "75" "65" "55" in
  let now := "2024-06-01T12:30:00"%string in
  store_ok None /\
  submit f now None =
    (Some [header_row; record_row 3 2 95 85 75 65 55 8 now], Some (Saved 3 2 "8.00")) /\
  exists (page : index_page) (ms : list float),
    index (Some "3"%string) (Some [header_row; record_row 3 2 95 85 75 65 55 8 now])
      = (Some [header_row; record_row 3 2 95 85 75 65 55 8 now], Some page) /\
    form_marks f = map Some ms /\
    List.length (table_rows page) = 8%nat /\
    nth_error (table_rows page) (Z.to_nat (2 * (3 - 1) + (2 - 1))) =
      Some (mkTableRow 3 2 (Some ms) (Some "8.00"%string) (Some (Text now))).
Proof.
  intros f now.
  assert (H : submit f now None =
    (Some [header_row; record_row 3 2 95 85 75 65 55 8 now], Some (Saved 3 2 "8.00")))
    by (vm_compute; reflexivity).
  split; [exact I | ]. split; [exact H | ].
  exact (submit_then_index f now None _ 3 2 "8.00" (Some "3"%string) I H).
Defined.

(** X6.  After a saved submission to a loadable store the chart is a plot,
    not the placeholder: [graph_png] draws a point for the submitted
    (year, semester) at x = 2 (year - 1) + (semester - 1) whose y is the
    SGPA of the submitted marks, the value whose two-decimal text was
    flashed. *)
Theorem submit_then_graph
  (f : form) (now : string) (st st' : store) (y s : Z) (txt : string) :
  store_ok st ->
  submit f now st = (st', Some (Saved y s txt)) ->
  exists (pts : list (nat * float)) (labels : list string)
         (notes : list (nat * float * string)) (ms : list float) (g : float),
    graph_png st' =
      (st', Some (TrendPlot (map fst pts) (map snd pts)
                            [0; 1; 2; 3; 4; 5; 6; 7]%nat labels notes)) /\
    form_marks f = map Some ms /\
    compute_sgpa ms = Some g /\
    txt = PyText.format_fixed 2 g /\
    In (Z.to_nat (2 * (y - 1) + (s - 1)), g) pts.
Proof.
  intros Hok Hsub.
  destruct (submit_saved_inv f now st st' y s txt Hsub)
    as (m1 & m2 & m3 & m4 & m5 & g & f0 & Hm & Iy & Is & _).
  destruct (submit_then_load f now st st' y s txt Hok Hsub)
    as (d & r & Hload & Hget & Hy & Hs & Hmr & Hg & Htxt & Hts).
  assert (P : In (Z.to_nat (2 * (y - 1) + (s - 1)), sgpa r)
                 (present_points 0 (snd (trend_series d)))).
  { apply present_points_In. split; [lia | ]. rewrite Nat.sub_0_r.
    cbn [trend_series snd]. rewrite nth_error_map, (slot_index y s Iy Is).
    cbn [option_map]. now rewrite Hget. }
  unfold graph_png. rewrite Hload. cbn [option_map].
  pose proof (draw_cases d) as D. cbv zeta in D. rewrite D.
  destruct (present_points 0 (snd (trend_series d))) as [|p pts] eqn:E; [destruct P | ].
  eexists (p :: pts), _, _, (marks r), (sgpa r).
  split; [reflexivity | ]. rewrite Hmr. auto.
Qed.

Lemma submit_then_graph_witness :
  let f := marks_form "3" "2" "95" "85" "75" "65" "55" in
  let now := "2024-06-01T12:30:00"%string in
  let st' := Some [header_row; record_row 3 2 95 85 75 65 55 8 now] in
  store_ok None /\
  submit f now None = (st', Some (Saved 3 2 "8.00")) /\
  exists (pts : list (nat * float)) (labels : list string)
         (notes : list (nat * float * string)) (ms : list float) (g : float),
    graph_png st' =
      (st', Some (TrendPlot (map fst pts) (map snd pts)
                            [0; 1; 2; 3; 4; 5; 6; 7]%nat labels notes)) /\
    form_marks f = map Some ms /\
    compute_sgpa ms = Some g /\
    "8.00"%string = PyText.format_fixed 2 g /\
    In (Z.to_nat (2 * (3 - 1) + (2 - 1)), g) pts.
Proof.
  intros f now st'.
  assert (H : submit f now None = (st', Some (Saved 3 2 "8.00")))
    by (vm_compute; reflexivity).
  split; [exact I | ]. split; [exact H | ].
  exact (submit_then_graph f now None st' 3 2 "8.00" I H).
Defined.


Lemma set_length (d : records) (k : key) (r : record) :
  List.length (PyDict.set key_eqb k r d) =
  match records_get k d with
  | Some _ => List.length d
  | None => S (List.length d)
  end.
Proof.
  unfold records_get. induction d as [|[k' r'] d IH]; cbn [PyDict.set PyDict.get]; [reflexivity | ].
  destruct (key_eqb k k'); [reflexivity | ].
  cbn [List.length]. rewrite IH. now destruct (PyDict.get key_eqb k d).
Qed.

(** X7.  A saved submission is one dict assignment on what was loaded
    before: the dict loaded afterwards is the earlier one with the new
    record assigned at (year, semester).  So a resubmitted semester replaces
    its record without adding an entry (the overall CGPA averages it once),
    every other (year, semester) maps to the same record as before, and the
    year CGPA of every other year and the chart value of every other slot
    are unchanged. *)
Theorem submit_changes_one_key
  (f : form) (now : string) (st st' : store) (y s : Z) (txt : string)
  (d : records) :
  store_ok st ->
  snd (load_records st) = Some d ->
  submit f now st = (st', Some (Saved y s txt)) ->
  exists (d' : records) (r : record),
    load_records st' = (st', Some d') /\
    d' = PyDict.set key_eqb (y, s) r d /\
    records_get (y, s) d' = Some r /\
    List.length d' = match records_get (y, s) d with
                     | Some _ => List.length d
                     | None => S (List.length d)
                     end /\
    (forall k : key, k <> (y, s) -> records_get k d' = records_get k d) /\
    (forall y' : Z, y' <> y -> compute_year_cgpa d' y' = compute_year_cgpa d y') /\
    (forall (i : nat) (k : key),
        nth_error slots i = Some k -> k <> (y, s) ->
        nth_error (snd (trend_series d')) i = nth_error (snd (trend_series d)) i).
Proof.
  intros Hok Hd Hsub.
  destruct (store_ok_ensure st Hok) as (body & recs & Hf & Hrecs).
  assert (Hd0 : read_rows header_row body [] = Some d).
  { unfold load_records in Hd. rewrite Hf in Hd. exact Hd. }
  destruct (submit_saved_inv f now st st' y s txt Hsub)
    as (m1 & m2 & m3 & m4 & m5 & g & f0 & _ & _ & _ & Hf0 & Hg & _ & ->).
  rewrite Hf in Hf0. injection Hf0 as <-.
  destruct (sgpa_five_facts m1 m2 m3 m4 m5) as (_ & g0 & Hg0 & _ & _ & _ & _ & _ & Hback).
  rewrite Hg in Hg0. injection Hg0 as <-.
  pose proof (load_after_append_set body recs d y s m1 m2 m3 m4 m5 g g now Hrecs Hd0 Hback)
    as Hload.
  eexists. eexists. split; [exact Hload | ]. split; [reflexivity | ].
  assert (F : forall k : key, k <> (y, s) ->
              records_get k (PyDict.set key_eqb (y, s)
                (mkRecord y s [m1; m2; m3; m4; m5] g (Some (Text now))) d) = records_get k d)
    by (intros k Hk; unfold records_get; now apply get_set_other).
  split; [apply get_set_same | ]. split; [apply set_length | ].
  split; [exact F | ]. split.
  - intros y' Hy'. unfold compute_year_cgpa.
    rewrite !F by congruence. reflexivity.
  - intros i k Hi Hk. cbn [trend_series snd].
    rewrite !nth_error_map, Hi. cbn [option_map]. now rewrite F.
Qed.

Lemma submit_changes_one_key_witness :
  let now := "2024-06-01T12:30:00"%string in
  let st := Some [header_row; record_row 1 1 40 40 40 40 40 5 "2024-01-01T10:00:00"] in
  let f := marks_form "1" "2" "95" "85" "75" "65" "55" in
  let st' := Some [header_row; record_row 1 1 40 40 40 40 40 5 "2024-01-01T10:00:00";
                   record_row 1 2 95 85 75 65 55 8 now] in
  store_ok st /\
  submit f now st = (st', Some (Saved 1 2 "8.00")) /\
  exists d d' : records,
    snd (load_records st) = Some d /\
    load_records st' = (st', Some d') /\
    (forall k : key, k <> (1, 2) -> records_get k d' = records_get k d).
Proof.
  intros now st f st'.
  assert (Hok : store_ok st).
  { eexists. eexists. split; [reflexivity | vm_compute; reflexivity]. }
  assert (Hd : snd (load_records st) =
               Some [((1, 1), mkRecord 1 1 [40; 40; 40; 40; 40]%float 5
                                (Some (Text "2024-01-01T10:00:00")))])
    by (vm_compute; reflexivity).
  assert (H : submit f now st = (st', Some (Saved 1 2 "8.00")))
    by (vm_compute; reflexivity).
  split; [exact Hok | ]. split; [exact H | ].
  destruct (submit_changes_one_key f now st st' 1 2 "8.00" _ Hok Hd H)
    as (d' & r & H1 & _ & _ & _ & H2 & _).
  eexists. exists d'. split; [exact Hd | ]. split; [exact H1 | exact H2].
Defined.

(** ** The first submission after a reset *)

Lemma single_ok_all : forallb single_ok (map Z.of_nat (seq 0 51)) = true.
Proof. vm_compute. reflexivity. Qed.

Lemma overall_single (k0 : key) (r : record) (ms : list float) :
  List.length ms = 5%nat -> compute_sgpa ms = Some (sgpa r) ->
  compute_overall_cgpa [(k0, r)] = Some (sgpa r).
Proof.
  intros L Hg.
  destruct ms as [|m1 [|m2 [|m3 [|m4 [|m5 [|m6 ms]]]]]]; try discriminate L.
  destruct (sgpa_five_facts m1 m2 m3 m4 m5) as (Hr & g & Hg0 & Hdiv & _).
  rewrite Hg in Hg0. injection Hg0 as <-.
  pose proof single_ok_all as T. rewrite forallb_forall in T.
  specialize (T (marks_to_grade_point m1 + marks_to_grade_point m2
                 + marks_to_grade_point m3 + marks_to_grade_point m4
                 + marks_to_grade_point m5)).
  unfold single_ok in T. rewrite Hdiv in T.
  unfold compute_overall_cgpa, PyDict.values. cbn [map snd List.length Z.of_nat Pos.of_succ_nat].
  destruct (PyNum.float_div_int (PyNum.sum_floats [sgpa r]) 1) as [v|].
  - f_equal. apply Leibniz.eqb_spec, T.
    rewrite <- (Z2Nat.id _ (proj1 Hr)). apply in_map, in_seq. lia.
  - assert (false = true); [ | discriminate].
    apply T. rewrite <- (Z2Nat.id _ (proj1 Hr)). apply in_map, in_seq. lia.
Qed.

(** X8.  After [reset_graph], whatever the file held before, the first
    saved submission is all there is: the loaded dict holds exactly its
    record, the overall CGPA is its SGPA, no year has a year CGPA yet, and
    the chart has exactly one point, at the submitted slot. *)
Theorem first_submission_after_reset
  (f : form) (now : string) (st st' : store) (y s : Z) (txt : string) :
  submit f now (fst (reset_graph st)) = (st', Some (Saved y s txt)) ->
  exists r : record,
    load_records st' = (st', Some [((y, s), r)]) /\
    form_marks f = map Some (marks r) /\
    compute_sgpa (marks r) = Some (sgpa r) /\
    txt = PyText.format_fixed 2 (sgpa r) /\
    compute_overall_cgpa [((y, s), r)] = Some (sgpa r) /\
    (forall y' : Z, compute_year_cgpa [((y, s), r)] y' = None) /\
    graph_png st' =
      (st', Some (TrendPlot [Z.to_nat (2 * (y - 1) + (s - 1))] [sgpa r]
                    [0; 1; 2; 3; 4; 5; 6; 7]%nat
                    ["1-1"; "1-2"; "2-1"; "2-2"; "3-1"; "3-2"; "4-1"; "4-2"]%string
                    [(Z.to_nat (2 * (y - 1) + (s - 1)),
                      PrimFloat.add (sgpa r) one_tenth,
                      PyText.format_fixed 1 (sgpa r))])).
Proof.
  intros Hsub. cbn [reset_graph fst] in Hsub.
  destruct (submit_saved_inv f now _ st' y s txt Hsub)
    as (m1 & m2 & m3 & m4 & m5 & g & f0 & Hm & Iy & Is & Hf0 & Hg & Htxt & ->).
  cbn [ensure_data_file] in Hf0. injection Hf0 as <-.
  destruct (sgpa_five_facts m1 m2 m3 m4 m5) as (_ & g0 & Hg0 & _ & _ & _ & _ & _ & Hback).
  rewrite Hg in Hg0. injection Hg0 as <-.
  set (r := mkRecord y s [m1; m2; m3; m4; m5] g (Some (Text now))).
  assert (L : load_records (Some ([header_row] ++ [record_row y s m1 m2 m3 m4 m5 g now]))
              = (Some ([header_row] ++ [record_row y s m1 m2 m3 m4 m5 g now]),
                 Some [((y, s), r)])).
  { unfold load_records. cbn [ensure_data_file app read_file read_rows is_blank record_row].
    fold (record_row y s m1 m2 m3 m4 m5 g now).
    rewrite (parse_record_row y s m1 m2 m3 m4 m5 g g now Hback). reflexivity. }
  exists r. split; [exact L | ]. split; [exact Hm | ]. split; [exact Hg | ].
  split; [exact Htxt | ].
  split; [apply (overall_single (y, s) r [m1; m2; m3; m4; m5]); [reflexivity | exact Hg] | ].
  split.
  - intros y'. unfold compute_year_cgpa, records_get. cbn [PyDict.get].
    destruct (key_eqb (y', 1) (y, s)) eqn:E1; [ | reflexivity].
    destruct (key_eqb (y', 2) (y, s)) eqn:E2; [ | reflexivity].
    apply key_eqb_eq in E1, E2. congruence.
  - unfold graph_png. rewrite L. cbn [option_map]. f_equal. f_equal.
    cbn [In] in Iy, Is.
    repeat (destruct Iy as [<- | Iy];
            [repeat (destruct Is as [<- | Is]; [reflexivity | ]); contradiction | ]).
    contradiction.
Qed.

Lemma first_submission_after_reset_witness :
  let f := marks_form "4" "1" "95" "85" "75" "65" "55" in
  let now := "2024-06-01T12:30:00"%string in
  let old := Some [[Text "not"; Text "a"; Text "header"]; []; [Text "x"]] in
  let st' := Some [header_row; record_row 4 1 95 85 75 65 55 8 now] in
  submit f now (fst (reset_graph old)) = (st', Some (Saved 4 1 "8.00")) /\
  exists r : record,
    load_records st' = (st', Some [((4, 1), r)]) /\
    compute_overall_cgpa [((4, 1), r)] = Some (sgpa r).
Proof.
  intros f now old st'.
  assert (H : submit f now (fst (reset_graph old)) = (st', Some (Saved 4 1 "8.00")))
    by (vm_compute; reflexivity).
  split; [exact H | ].
  destruct (first_submission_after_reset f now old st' 4 1 "8.00" H)
    as (r & H1 & _ & _ & _ & H2 & _).
  exists r. split; [exact H1 | exact H2].
Defined.

(** ** SGPA and year CGPA as numbers *)

Lemma sum_ints_shift (ns : list Z) (a : Z) :
  fold_left Z.add ns a = a + PyNum.sum_ints ns.
Proof.
  unfold PyNum.sum_ints. revert a.
  induction ns as [|n ns IH]; intros a; cbn [fold_left]; [lia | ].
  rewrite (IH (a + n)), (IH (0 + n)). lia.
Qed.

Lemma sum_ints_cons (n : Z) (ns : list Z) :
  PyNum.sum_ints (n :: ns) = n + PyNum.sum_ints ns.
Proof. unfold PyNum.sum_ints at 1. cbn [fold_left]. apply sum_ints_shift. Qed.

Lemma sum_ints_perm (l l' : list Z) :
  Permutation l l' -> PyNum.sum_ints l = PyNum.sum_ints l'.
Proof.
  induction 1 as [ | x l l' _ IH | x y l | l l' l'' _ IH1 _ IH2].
  - reflexivity.
  - rewrite !sum_ints_cons. lia.
  - rewrite !sum_ints_cons. lia.
  - congruence.
Qed.

(** X9.  [compute_sgpa] raises (ZeroDivisionError) exactly on the empty
    list, and does not depend on the order of the marks: any rearrangement
    of the same marks has the same SGPA. *)
Theorem compute_sgpa_order_free (ms : list float) :
  (compute_sgpa ms = None <-> ms = [])
  /\ (forall ms' : list float, Permutation ms ms' -> compute_sgpa ms' = compute_sgpa ms).
Proof.
  split.
  - unfold compute_sgpa, PyNum.int_truediv. rewrite length_map.
    destruct ms as [|m ms]; [split; reflexivity | ].
    cbn [List.length]. rewrite Nat2Z.inj_succ.
    destruct (Z.succ (Z.of_nat (List.length ms)) =? 0) eqn:E.
    + apply Z.eqb_eq in E. lia.
    + split; discriminate.
  - intros ms' P. unfold compute_sgpa. rewrite !length_map.
    rewrite (Permutation_length P).
    now rewrite (sum_ints_perm _ _ (Permutation_map marks_to_grade_point P)).
Qed.

Lemma tenth_ok_all :
  forallb (fun a => forallb (tenth_ok a) (map Z.of_nat (seq 0 51)))
          (map Z.of_nat (seq 0 51)) = true.
Proof. vm_compute. reflexivity. Qed.

Lemma tenth_ok_range (a b : Z) : 0 <= a <= 50 -> 0 <= b <= 50 -> tenth_ok a b = true.
Proof.
  intros Ha Hb. pose proof tenth_ok_all as H. rewrite forallb_forall in H.
  assert (Ia : In a (map Z.of_nat (seq 0 51)))
    by (rewrite <- (Z2Nat.id a) by lia; apply in_map, in_seq; lia).
  assert (Ib : In b (map Z.of_nat (seq 0 51)))
    by (rewrite <- (Z2Nat.id b) by lia; apply in_map, in_seq; lia).
  specialize (H a Ia). rewrite forallb_forall in H. exact (H b Ib).
Qed.

(** X10.  For a year whose two semester records carry the SGPAs of five
    marks each, the year CGPA exists, lies within [[0, 10]], is the same
    whichever of the two semesters is which, and rounds to two decimals as
    the exact decimal of (sum of the ten grade points) / 10. *)
Theorem year_cgpa_of_sgpas
  (d : records) (y : Z) (s1 s2 : record)
  (a1 a2 a3 a4 a5 b1 b2 b3 b4 b5 : float) :
  records_get (y, 1) d = Some s1 ->
  records_get (y, 2) d = Some s2 ->
  compute_sgpa [a1; a2; a3; a4; a5] = Some (sgpa s1) ->
  compute_sgpa [b1; b2; b3; b4; b5] = Some (sgpa s2) ->
  exists v : float,
    compute_year_cgpa d y = Some v /\
    PrimFloat.leb 0 v = true /\ PrimFloat.leb v 10 = true /\
    v = PrimFloat.div (PrimFloat.add (sgpa s2) (sgpa s1)) 2 /\
    PyText.format_fixed 2 v =
      two_decimals_of_tenth
        (marks_to_grade_point a1 + marks_to_grade_point a2 + marks_to_grade_point a3
         + marks_to_grade_point a4 + marks_to_grade_point a5
         + (marks_to_grade_point b1 + marks_to_grade_point b2 + marks_to_grade_point b3
            + marks_to_grade_point b4 + marks_to_grade_point b5)).
Proof.
  intros H1 H2 Ha Hb.
  destruct (sgpa_five_facts a1 a2 a3 a4 a5) as (Ra & ga & Hga & Da & _).
  destruct (sgpa_five_facts b1 b2 b3 b4 b5) as (Rb & gb & Hgb & Db & _).
  rewrite Ha in Hga. injection Hga as <-.
  rewrite Hb in Hgb. injection Hgb as <-.
  pose proof (tenth_ok_range _ _ Ra Rb) as T.
  unfold tenth_ok in T. rewrite Da, Db in T. cbv zeta in T.
  repeat (apply andb_prop in T; destruct T as [T ?]).
  unfold compute_year_cgpa. rewrite H1, H2. eexists. split; [reflexivity | ].
  repeat split; auto.
  - now apply Leibniz.eqb_spec.
  - now apply String.eqb_eq.
Qed.

Lemma year_cgpa_of_sgpas_witness :
  let r1 := mkRecord 2 1 [95; 85; 75; 65; 55]%float 8 None in
  let r2 := mkRecord 2 2 [90; 90; 90; 90; 45]%float 9 None in
  let d := [((2, 2), r2); ((2, 1), r1)] in
  records_get (2, 1) d = Some r1 /\
  records_get (2, 2) d = Some r2 /\
  compute_sgpa [95; 85; 75; 65; 55]%float = Some (sgpa r1) /\
  compute_sgpa [90; 90; 90; 90; 45]%float = Some (sgpa r2) /\
  exists v : float,
    compute_year_cgpa d 2 = Some v /\
    PrimFloat.leb 0 v = true /\ PrimFloat.leb v 10 = true.
Proof.
  intros r1 r2 d.
  split; [reflexivity | ]. split; [reflexivity | ].
  split; [reflexivity | ]. split; [reflexivity | ].
  destruct (year_cgpa_of_sgpas d 2 r1 r2 95 85 75 65 55 90 90 90 90 45
              eq_refl eq_refl eq_refl eq_refl) as (v & Hv & H0 & H10 & _).
  exists v. auto.
Defined.

(** ** [save_record] and the number of marks *)


(** ** Rows of unexpected shape *)

Lemma row_get_firstn (fieldnames r : row) (name : string) :
  row_get fieldnames (firstn (List.length fieldnames) r) name = row_get fieldnames r name.
Proof.
  revert r. induction fieldnames as [|c fs IH]; intros r; [reflexivity | ].
  cbn [List.length row_get].
  destruct r as [|x r]; cbn [firstn tl hd_error]; [reflexivity | ].
  now rewrite IH.
Qed.

Lemma parse_record_firstn (fieldnames r : row) :
  parse_record fieldnames (firstn (List.length fieldnames) r) = parse_record fieldnames r.
Proof.
  unfold parse_record, field_int, field_float. now rewrite !row_get_firstn.
Qed.

Lemma parse_record_needs_sgpa (fieldnames r : row) (rec : record) :
  parse_record fieldnames r = Some rec ->
  exists c : cell, row_get fieldnames r "sgpa" = Some (Some c).
Proof.
  unfold parse_record, field_float at 6.
  destruct (row_get fieldnames r "sgpa") as [[c|]|]; [eauto | | ];
    intros H;
    repeat match type of H with
           | match ?x with Some _ => _ | None => _ end = _ => destruct x
           end; discriminate H.
Qed.

Lemma short_row_no_sgpa (r : row) :
  (List.length r < 8)%nat -> row_get header_row r "sgpa" = Some None.
Proof.
  intros L.
  destruct r as [|c0 [|c1 [|c2 [|c3 [|c4 [|c5 [|c6 [|c7 r]]]]]]]]; try reflexivity.
  cbn [List.length] in L. lia.
Qed.

Lemma read_rows_skip_blank (fieldnames : row) (body : list row) (acc : records) :
  read_rows fieldnames (filter (fun r => negb (is_blank r)) body) acc =
  read_rows fieldnames body acc.
Proof.
  revert acc. induction body as [|r body IH]; intros acc; [reflexivity | ].
  cbn [filter read_rows]. destruct (is_blank r) eqn:E; cbn [negb]; [apply IH | ].
  cbn [read_rows]. rewrite E.
  destruct (parse_record fieldnames r); [apply IH | reflexivity].
Qed.

(** X12.  How [load_records] treats rows that do not have nine fields:
    blank rows are passed over wherever they stand; fields beyond those the
    header names are ignored; a row of eight fields that lacks only the
    timestamp loads like the full row, with no timestamp; a row of fewer
    than eight fields (but not blank) does not parse. *)
Theorem load_row_shapes (fieldnames : row) (body : list row) :
  snd (load_records (Some (fieldnames :: filter (fun r => negb (is_blank r)) body))) =
  snd (load_records (Some (fieldnames :: body)))
  /\ (forall r : row,
        parse_record fieldnames (firstn (List.length fieldnames) r) =
        parse_record fieldnames r)
  /\ (forall c0 c1 c2 c3 c4 c5 c6 c7 c8 : cell,
        parse_record header_row [c0; c1; c2; c3; c4; c5; c6; c7] =
        option_map (fun rec => mkRecord (year rec) (semester rec) (marks rec) (sgpa rec) None)
                   (parse_record header_row [c0; c1; c2; c3; c4; c5; c6; c7; c8]))
  /\ (forall r : row, (List.length r < 8)%nat -> parse_record header_row r = None).
Proof.
  split; [ | split; [ | split]].
  - unfold load_records. cbn [ensure_data_file snd read_file].
    apply read_rows_skip_blank.
  - intros r. apply parse_record_firstn.
  - intros c0 c1 c2 c3 c4 c5 c6 c7 c8.
    unfold parse_record, field_int, field_float.
    destruct (row_get_header c0 c1 c2 c3 c4 c5 c6 c7 c8)
      as (-> & -> & -> & -> & -> & -> & -> & -> & ->).
    change (row_get header_row [c0; c1; c2; c3; c4; c5; c6; c7] "year") with (Some (Some c0)).
    change (row_get header_row [c0; c1; c2; c3; c4; c5; c6; c7] "semester") with (Some (Some c1)).
    change (row_get header_row [c0; c1; c2; c3; c4; c5; c6; c7] "m1") with (Some (Some c2)).
    change (row_get header_row [c0; c1; c2; c3; c4; c5; c6; c7] "m2") with (Some (Some c3)).
    change (row_get header_row [c0; c1; c2; c3; c4; c5; c6; c7] "m3") with (Some (Some c4)).
    change (row_get header_row [c0; c1; c2; c3; c4; c5; c6; c7] "m4") with (Some (Some c5)).
    change (row_get header_row [c0; c1; c2; c3; c4; c5; c6; c7] "m5") with (Some (Some c6)).
    change (row_get header_row [c0; c1; c2; c3; c4; c5; c6; c7] "sgpa") with (Some (Some c7)).
    change (row_get header_row [c0; c1; c2; c3; c4; c5; c6; c7] "timestamp")
      with (Some (@None cell)).
    destruct (cell_int c0), (cell_int c1), (cell_float c2), (cell_float c3),
             (cell_float c4), (cell_float c5), (cell_float c6), (cell_float c7);
      reflexivity.
  - intros r L.
    destruct (parse_record header_row r) as [rec|] eqn:E; [ | reflexivity].
    destruct (parse_record_needs_sgpa _ _ _ E) as [c Hc].
    rewrite (short_row_no_sgpa r L) in Hc. discriminate Hc.
Qed.

(** ** A row that does not parse *)



(** ** The index page *)

(** X14.  When the file loads, [index] returns a page for every query,
    leaving an existing file as it is.  Its table lists the eight slots in
    chart order and shows an SGPA (two decimals) exactly for the slots that
    [graph_png] plots, with the same values.  The year query selects a year
    CGPA only when it is an int from 1 to 4, and then the one listed for
    that year among the four year CGPAs; a missing, non-integer or
    out-of-range query selects nothing and does no harm. *)
Theorem index_page_consistent (q : option string) (st : store) (d : records) :
  snd (load_records st) = Some d ->
  exists page : index_page,
    index q st = (ensure_data_file st, Some page) /\
    map (fun t => (row_year t, row_semester t)) (table_rows page) = slots /\
    map row_sgpa (table_rows page) =
      map (option_map (PyText.format_fixed 2)) (snd (trend_series d)) /\
    map row_marks (table_rows page) =
      map (fun k => option_map marks (records_get k d)) slots /\
    map fst (year_cgpas page) = [1; 2; 3; 4] /\
    overall_cgpa page = compute_overall_cgpa d /\
    selected_year page = match q with Some v => PyText.py_int v | None => None end /\
    (forall v : float,
        selected_year_cgpa page = Some v <->
        exists y : Z, selected_year page = Some y /\ 1 <= y <= 4 /\
                      In (y, Some v) (year_cgpas page)) /\
    (forall (y : Z) (c : option float),
        In (y, c) (year_cgpas page) -> c = compute_year_cgpa d y).
Proof.
  intros Hd.
  assert (L : load_records st = (ensure_data_file st, Some d)).
  { unfold load_records in *. cbn [snd] in Hd. now rewrite Hd. }
  unfold index. rewrite L. cbn [option_map].
  eexists. split; [reflexivity | ].
  cbn [table_rows year_cgpas overall_cgpa selected_year selected_year_cgpa].
  split; [reflexivity | ].
  split; [cbn [trend_series snd]; rewrite !map_map; apply map_ext; intros k;
          cbn [row_sgpa]; now destruct (records_get k d) | ].
  split; [rewrite map_map; reflexivity | ].
  split; [reflexivity | ]. split; [reflexivity | ]. split; [reflexivity | ].
  assert (Y : forall (y : Z) (c : option float),
             In (y, c) (map (fun y0 => (y0, compute_year_cgpa d y0)) [1; 2; 3; 4]) ->
             c = compute_year_cgpa d y).
  { intros y c H. apply in_map_iff in H. destruct H as (y0 & [= <- <-] & _). reflexivity. }
  split; [ | exact Y].
  intros v. destruct (match q with Some v0 => PyText.py_int v0 | None => None end) as [y|].
  - destruct (existsb (Z.eqb y) [1; 2; 3; 4]) eqn:E.
    + apply existsb_exists in E. destruct E as (y' & Iy & Ey).
      apply Z.eqb_eq in Ey. subst y'. split.
      * intros H. exists y. split; [reflexivity | ].
        split; [cbn [In] in Iy; lia | ].
        rewrite <- H. now apply (in_map (fun y0 => (y0, compute_year_cgpa d y0))).
      * intros (y' & [= <-] & _ & H). symmetry. exact (Y _ _ H).
    + split; [discriminate | ].
      intros (y' & [= <-] & R & _). exfalso.
      assert (T : existsb (Z.eqb y) [1; 2; 3; 4] = true); [ | congruence].
      apply existsb_exists. exists y. split; [cbn [In]; lia | apply Z.eqb_refl].
  - split; [discriminate | ]. intros (y & H & _). discriminate H.
Qed.

Lemma index_page_consistent_witness :
  let st := Some [header_row; record_row 2 1 95 85 75 65 55 8 "2024-01-01T10:00:00";
                  record_row 2 2 90 90 90 90 45 9 "2024-06-01T10:00:00"] in
  exists (d : records) (page : index_page),
    snd (load_records st) = Some d /\
    index (Some " 2 "%string) st = (ensure_data_file st, Some page) /\
    selected_year page = Some 2 /\
    map row_sgpa (table_rows page) =
      map (option_map (PyText.format_fixed 2)) (snd (trend_series d)).
Proof.
  intros st.
  assert (Hd : snd (load_records st) =
    Some [((2, 1), mkRecord 2 1 [95; 85; 75; 65; 55]%float 8 (Some (Text "2024-01-01T10:00:00")));
          ((2, 2), mkRecord 2 2 [90; 90; 90; 90; 45]%float 9 (Some (Text "2024-06-01T10:00:00")))])
    by (vm_compute; reflexivity).
  destruct (index_page_consistent (Some " 2 "%string) st _ Hd)
    as (page & H1 & _ & H2 & _ & _ & _ & H3 & _).
  eexists. exists page. split; [exact Hd | ]. split; [exact H1 | ].
  split; [exact H3 | exact H2].
Defined.

(** ** SGPAs compared *)

Lemma fifth_order_ok_all :
  forallb (fun a => forallb (fifth_order_ok a) (map Z.of_nat (seq 0 51)))
          (map Z.of_nat (seq 0 51)) = true.
Proof. vm_compute. reflexivity. Qed.

Lemma fifth_order (a b : Z) (x y : float) :
  0 <= a <= 50 -> 0 <= b <= 50 ->
  PyNum.int_truediv a 5 = Some x -> PyNum.int_truediv b 5 = Some y ->
  PrimFloat.leb x y = (a <=? b) /\ (x = y <-> a = b).
Proof.
  intros Ha Hb Hx Hy. pose proof fifth_order_ok_all as H. rewrite forallb_forall in H.
  assert (Ia : In a (map Z.of_nat (seq 0 51)))
    by (rewrite <- (Z2Nat.id a) by lia; apply in_map, in_seq; lia).
  assert (Ib : In b (map Z.of_nat (seq 0 51)))
    by (rewrite <- (Z2Nat.id b) by lia; apply in_map, in_seq; lia).
  specialize (H a Ia). rewrite forallb_forall in H. specialize (H b Ib).
  unfold fifth_order_ok in H. rewrite Hx, Hy in H.
  apply andb_prop in H. destruct H as [H1 H2].
  apply Bool.eqb_prop in H1, H2. split; [exact H1 | ].
  rewrite <- Z.eqb_eq, <- H2. symmetry. apply Leibniz.eqb_spec.
Qed.

(** X15.  Raising marks never lowers the SGPA: when each of five marks is
    at most the corresponding mark of a second list, the SGPA of the first
    list is at most that of the second. *)
Theorem sgpa_monotone (a1 a2 a3 a4 a5 b1 b2 b3 b4 b5 : float) :
  PrimFloat.leb a1 b1 = true -> PrimFloat.leb a2 b2 = true ->
  PrimFloat.leb a3 b3 = true -> PrimFloat.leb a4 b4 = true ->
  PrimFloat.leb a5 b5 = true ->
  exists g h : float,
    compute_sgpa [a1; a2; a3; a4; a5] = Some g /\
    compute_sgpa [b1; b2; b3; b4; b5] = Some h /\
    PrimFloat.leb g h = true.
Proof.
  intros H1 H2 H3 H4 H5.
  destruct (sgpa_five_facts a1 a2 a3 a4 a5) as (Ra & g & Hg & Da & _).
  destruct (sgpa_five_facts b1 b2 b3 b4 b5) as (Rb & h & Hh & Db & _).
  exists g, h. split; [exact Hg | ]. split; [exact Hh | ].
  rewrite (proj1 (fifth_order _ _ g h Ra Rb Da Db)). apply Z.leb_le.
  pose proof (grade_point_monotone a1 b1 H1). pose proof (grade_point_monotone a2 b2 H2).
  pose proof (grade_point_monotone a3 b3 H3). pose proof (grade_point_monotone a4 b4 H4).
  pose proof (grade_point_monotone a5 b5 H5). lia.
Qed.

Lemma sgpa_monotone_witness :
  (PrimFloat.leb 35 40 = true /\ PrimFloat.leb 50 50 = true /\
   PrimFloat.leb 60 89.5 = true /\ PrimFloat.leb 0 100 = true /\
   PrimFloat.leb 90 90 = true) /\
  exists g h : float,
    compute_sgpa [35; 50; 60; 0; 90]%float = Some g /\
    compute_sgpa [40; 50; 89.5; 100; 90]%float = Some h /\
    PrimFloat.leb g h = true.
Proof.
  split; [repeat split; reflexivity | ].
  exact (sgpa_monotone 35 50 60 0 90 40 50 89.5 100 90
           eq_refl eq_refl eq_refl eq_refl eq_refl).
Defined.

Lemma grade_point_top (m : float) :
  marks_to_grade_point m = 10 <-> PyNum.ge m 90 = true.
Proof.
  unfold marks_to_grade_point.
  repeat match goal with |- context [if ?b then _ else _] => destruct b end;
    split; intros H; (reflexivity || discriminate H || lia).
Qed.

Lemma grade_point_zero (m : float) :
  marks_to_grade_point m = 0 <-> PyNum.ge m 40 = false.
Proof.
  pose proof (ge_chain 80 90 m eq_refl) as U9.
  pose proof (ge_chain 70 80 m eq_refl) as U8.
  pose proof (ge_chain 60 70 m eq_refl) as U7.
  pose proof (ge_chain 50 60 m eq_refl) as U6.
  pose proof (ge_chain 40 50 m eq_refl) as U5.
  unfold marks_to_grade_point.
  destruct (PyNum.ge m 90) eqn:E90; destruct (PyNum.ge m 80) eqn:E80;
    destruct (PyNum.ge m 70) eqn:E70; destruct (PyNum.ge m 60) eqn:E60;
    destruct (PyNum.ge m 50) eqn:E50; destruct (PyNum.ge m 40) eqn:E40;
    repeat match goal with
           | H : ?a = true -> _, E : ?a = true |- _ => specialize (H E)
           end;
    try congruence; split; intros H; (reflexivity || discriminate H || lia).
Qed.

(** X16.  Among lists of five marks the SGPA tells the grade-point totals
    apart: two lists have the same SGPA exactly when their grade points sum
    to the same total.  The SGPA is 10 exactly when all five marks are at
    least 90, and 0 exactly when no mark reaches 40. *)
Theorem sgpa_separates_totals (a1 a2 a3 a4 a5 b1 b2 b3 b4 b5 : float) :
  (compute_sgpa [a1; a2; a3; a4; a5] = compute_sgpa [b1; b2; b3; b4; b5] <->
   marks_to_grade_point a1 + marks_to_grade_point a2 + marks_to_grade_point a3
   + marks_to_grade_point a4 + marks_to_grade_point a5
   = marks_to_grade_point b1 + marks_to_grade_point b2 + marks_to_grade_point b3
     + marks_to_grade_point b4 + marks_to_grade_point b5)
  /\ (compute_sgpa [a1; a2; a3; a4; a5] = Some 10%float <->
      Forall (fun m => PrimFloat.leb 90 m = true) [a1; a2; a3; a4; a5])
  /\ (compute_sgpa [a1; a2; a3; a4; a5] = Some 0%float <->
      Forall (fun m => PrimFloat.leb 40 m = false) [a1; a2; a3; a4; a5]).
Proof.
  destruct (sgpa_five_facts a1 a2 a3 a4 a5) as (Ra & g & Hg & Da & _).
  destruct (sgpa_five_facts b1 b2 b3 b4 b5) as (Rb & h & Hh & Db & _).
  pose proof (grade_point_range a1) as G1. pose proof (grade_point_range a2) as G2.
  pose proof (grade_point_range a3) as G3. pose proof (grade_point_range a4) as G4.
  pose proof (grade_point_range a5) as G5.
  split; [ | split].
  - rewrite Hg, Hh. rewrite <- (proj2 (fifth_order _ _ g h Ra Rb Da Db)).
    split; [now intros [= ->] | now intros ->].
  - rewrite Hg.
    assert (T : PyNum.int_truediv 50 5 = Some 10%float) by reflexivity.
    pose proof (proj2 (fifth_order _ 50 g 10%float Ra ltac:(lia) Da T)) as E.
    split.
    + intros [= ->]. pose proof (proj1 E eq_refl) as Tot.
      repeat constructor; apply grade_point_top; lia.
    + intros F.
      repeat match goal with
             | H : Forall _ (_ :: _) |- _ => inversion H; subst; clear H
             end.
      f_equal. apply E.
      repeat match goal with
             | H : PrimFloat.leb 90 ?m = true |- _ =>
                 apply (proj2 (grade_point_top m)) in H
             end. lia.
  - rewrite Hg.
    assert (T : PyNum.int_truediv 0 5 = Some 0%float) by reflexivity.
    pose proof (proj2 (fifth_order _ 0 g 0%float Ra ltac:(lia) Da T)) as E.
    split.
    + intros [= ->]. pose proof (proj1 E eq_refl) as Tot.
      repeat constructor; apply grade_point_zero; lia.
    + intros F.
      repeat match goal with
             | H : Forall _ (_ :: _) |- _ => inversion H; subst; clear H
             end.
      f_equal. apply E.
      repeat match goal with
             | H : PrimFloat.leb 40 ?m = false |- _ =>
                 apply (proj2 (grade_point_zero m)) in H
             end. lia.
Qed.

(** ** A data file that exists but is empty *)

Lemma row_get_no_name (fieldnames r : row) (name : string) :
  Forall (fun c => is_name name c = false) fieldnames ->
  row_get fieldnames r name = None.
Proof.
  intros H. revert r. induction H as [|c fs Hc _ IH]; intros r; [reflexivity | ].
  cbn [row_get]. now rewrite IH, Hc.
Qed.

Lemma parse_record_needs_year (fieldnames r : row) :
  row_get fieldnames r "year" = None -> parse_record fieldnames r = None.
Proof. intros H. unfold parse_record, field_int. now rewrite H. Qed.

Lemma sgpa_text_not_year :
  forallb (fun k => negb (String.eqb (two_decimals_of_fifth k) "year"))
          (map Z.of_nat (seq 0 51)) = true.
Proof. vm_compute. reflexivity. Qed.

Lemma record_row_no_year (y s : Z) (m1 m2 m3 m4 m5 g : float) (now : string) :
  In y [1; 2; 3; 4] -> In s [1; 2] ->
  compute_sgpa [m1; m2; m3; m4; m5] = Some g ->
  now <> "year"%string ->
  Forall (fun c => is_name "year" c = false) (record_row y s m1 m2 m3 m4 m5 g now).
Proof.
  intros Iy Is Hg Hnow.
  destruct (sgpa_five_facts m1 m2 m3 m4 m5) as (Hr & g0 & Hg0 & _ & _ & _ & _ & Htxt & _).
  rewrite Hg in Hg0. injection Hg0 as <-.
  assert (T : String.eqb (PyText.format_fixed 2 g) "year" = false).
  { rewrite Htxt. pose proof sgpa_text_not_year as A. rewrite forallb_forall in A.
    apply negb_true_iff, A.
    rewrite <- (Z2Nat.id _ (proj1 Hr)). apply in_map, in_seq. lia. }
  assert (N : String.eqb now "year" = false) by now apply String.eqb_neq.
  unfold record_row. cbn [In] in Iy, Is.
  repeat constructor; cbn [is_name]; auto.
  - repeat (destruct Iy as [<- | Iy]; [reflexivity | ]). contradiction.
  - repeat (destruct Is as [<- | Is]; [reflexivity | ]). contradiction.
Qed.

(** X17.  [ensure_data_file] only checks that the file exists.  When the
    file exists but is empty, a saved submission becomes its first line,
    which [csv.DictReader] takes for the header: although "Saved" was
    flashed, the record shows nowhere (the loaded dict is empty, the chart
    is the placeholder, the table has no SGPA and there is no overall CGPA);
    and once a second submission is saved, every read raises. *)
Theorem empty_file_hides_first_row
  (f : form) (now : string) (st' : store) (y s : Z) (txt : string) :
  submit f now (Some []) = (st', Some (Saved y s txt)) ->
  (exists r : row, st' = Some [r] /\ List.length r = 9%nat)
  /\ load_records st' = (st', Some [])
  /\ graph_png st' = (st', Some NoDataPlaceholder)
  /\ (forall q : option string,
        exists page : index_page,
          index q st' = (st', Some page) /\
          Forall (fun t => row_sgpa t = None) (table_rows page) /\
          overall_cgpa page = None)
  /\ (now <> "year"%string ->
      forall (f2 : form) (now2 : string) (st'' : store) (y2 s2 : Z) (txt2 : string),
        submit f2 now2 st' = (st'', Some (Saved y2 s2 txt2)) ->
        snd (load_records st'') = None /\
        (forall q : option string, snd (index q st'') = None) /\
        snd (graph_png st'') = None).
Proof.
  intros Hsub.
  destruct (submit_saved_inv f now _ st' y s txt Hsub)
    as (m1 & m2 & m3 & m4 & m5 & g & f0 & _ & Iy & Is & Hf0 & Hg & _ & ->).
  cbn [ensure_data_file] in Hf0. injection Hf0 as <-. cbn [app].
  split; [eexists; split; reflexivity | ].
  split; [reflexivity | ]. split; [reflexivity | ].
  split.
  - intros q. eexists. split; [reflexivity | ].
    cbn [table_rows overall_cgpa]. split; [ | reflexivity].
    repeat constructor.
  - intros Hnow f2 now2 st'' y2 s2 txt2 Hsub2.
    destruct (submit_saved_inv f2 now2 _ st'' y2 s2 txt2 Hsub2)
      as (n1 & n2 & n3 & n4 & n5 & g2 & f1 & _ & _ & _ & Hf1 & _ & _ & ->).
    cbn [ensure_data_file] in Hf1. injection Hf1 as <-. cbn [app].
    assert (L : load_records
                  (Some [record_row y s m1 m2 m3 m4 m5 g now;
                         record_row y2 s2 n1 n2 n3 n4 n5 g2 now2]) =
                (Some [record_row y s m1 m2 m3 m4 m5 g now;
                       record_row y2 s2 n1 n2 n3 n4 n5 g2 now2], None)).
    { unfold load_records. cbn [ensure_data_file read_file read_rows].
      assert (B : is_blank (record_row y2 s2 n1 n2 n3 n4 n5 g2 now2) = false) by reflexivity.
      rewrite B, parse_record_needs_year; [reflexivity | ].
      apply row_get_no_name. now apply record_row_no_year. }
    split; [now rewrite L | ]. split.
    + intros q. unfold index. now rewrite L.
    + unfold graph_png. now rewrite L.
Qed.

Lemma empty_file_hides_first_row_witness :
  let f := marks_form "1" "1" "95" "85" "75" "65" "55" in
  let now := "2024-06-01T12:30:00"%string in
  let r := record_row 1 1 95 85 75 65 55 8 now in
  submit f now (Some []) = (Some [r], Some (Saved 1 1 "8.00")) /\
  load_records (Some [r]) = (Some [r], Some []) /\
  graph_png (Some [r]) = (Some [r], Some NoDataPlaceholder).
Proof.
  intros f now r.
  assert (H : submit f now (Some []) = (Some [r], Some (Saved 1 1 "8.00")))
    by (vm_compute; reflexivity).
  split; [exact H | ].
  destruct (empty_file_hides_first_row f now (Some [r]) 1 1 "8.00" H)
    as (_ & H1 & H2 & _).
  split; [exact H1 | exact H2].
Defined.
